(** * Conversor_Moedas: the rate-acquisition pipeline

    A shallow embedding of the Python sources

      - [src/core/conversor.py]   (ConversorMoedas.converter, converter_multiplo)
      - [src/core/cache.py]       (CacheManager)
      - [src/core/models.py]      (Conversao, ConversaoMultipla)
      - [src/api/manager.py]      (APIManager._executar_com_fallback)
      - [src/api/exchangerate.py] (ExchangeRateClient._tratar_erro)

    and, in a second part, of the functions around them (the HTTP layer,
    the provider clients, the manager's and the engine's currency queries,
    the [cached] decorator, [src/utils])

    together with the two pieces of the Python runtime the engine computes
    with: [decimal.Decimal] under the default context (28 significant digits,
    ROUND_HALF_EVEN) and binary64 [float] with its shortest [repr].

    Conventions.  An exception is a value of [Exn]; a call that may raise
    returns [Res A].  Mutable objects are passed and returned explicitly.
    [datetime.now()] reads the field [now] of the engine (microseconds);
    time only moves when the environment says so (a network call takes its
    latency).  The persistence collaborator (the SQLAlchemy session) is an
    append-only table that hands out identifiers and never fails. *)

From Stdlib Require Import ZArith NArith QArith Qround Qpower Qabs Lia Lqa Ascii.
From stdpp Require Import base strings list gmap pretty.

Set Default Proof Using "Type".

(** ** Python values, exceptions, results *)

Module Py.

(** A binary64 float: [(-1)^sign * m * 2^e].  Canonical finite values have
    [2^52 <= m < 2^53] and [-1074 <= e <= 971] (normal), or [m < 2^52] and
    [e = -1074] (subnormal and zero). *)
Inductive PyFloat :=
| FFin (sign : bool) (m : N) (e : Z)
| FInf (sign : bool)
| FNaN.

(** The JSON-shaped values that travel through the cache and the provider
    envelopes. *)
#[local] Unset Elimination Schemes.
Inductive PyVal :=
| VNone
| VBool (b : bool)
| VInt (z : Z)
| VFloat (f : PyFloat)
| VStr (s : string)
| VList (items : list PyVal)
| VDict (fields : list (string * PyVal)).
#[local] Set Elimination Schemes.

(** [APIError] as in [src/api/base.py]: message, status code, details. *)
Record APIErrorData := mkAPIError {
  message : string;
  status_code : option Z;
  details : list (string * PyVal)
}.

Inductive Exn :=
| ValueError (msg : string)
| ValidationError                         (* pydantic, a ValueError subclass *)
| InvalidOperation                        (* decimal.InvalidOperation *)
| DivisionByZero                          (* decimal.DivisionByZero *)
| TypeError
| KeyError (key : string)
| JSONDecodeError                         (* json: a ValueError subclass *)
| OSError
| APIError (e : APIErrorData)
| OtherException (name : string).

Inductive Res (A : Type) :=
| Ok (a : A)
| Raise (e : Exn).
Arguments Ok {A} a.
Arguments Raise {A} e.

(** Sequencing: an exception raised by the first call skips the rest. *)
#[global] Instance Res_bind : MBind Res := fun A B k r =>
  match r with
  | Ok a => k a
  | Raise e => Raise e
  end.
#[global] Instance Res_ret : MRet Res := fun A a => Ok a.

#[global] Instance PyFloat_eq_dec : EqDecision PyFloat.
Proof. solve_decision. Defined.

End Py.
Export Py.

(** ** decimal.Decimal under the default context *)

Module Dec.

(** [getcontext().prec] *)
Definition prec : N := 28.
(** [Etiny = Emin - prec + 1] for the default [Emin = -999999]; it only
    appears as the exponent of [x / Infinity].  Apart from that the
    exponent limits [Emin]/[Emax] are not modelled: the decimals of the
    engine are printed floats and ints and products of two of them, whose
    exponents stay far inside the limits. *)
Definition Etiny : Z := -1000026.

(** [(_sign, _int, _exp)]: the value [(-1)^sign * coef * 10^exp]. *)
Inductive Decimal :=
| DFin (sign : bool) (coef : N) (exp : Z)
| DInf (sign : bool)
| DNaN.

#[global] Instance Decimal_eq_dec : EqDecision Decimal.
Proof. solve_decision. Defined.

Fixpoint ndigits_fuel (fuel : nat) (n : N) : N :=
  match fuel with
  | O => 1
  | S fuel' => if (n <? 10)%N then 1%N else (1 + ndigits_fuel fuel' (n / 10))%N
  end.

(** [len(self._int)]: number of decimal digits, 1 for zero. *)
Definition ndigits (n : N) : N := ndigits_fuel (N.to_nat (N.size n)) n.

(** Drop the last [k] digits of [c], rounding half to even
    ([_round_half_even]). *)
Definition drop_half_even (c : N) (k : N) : N :=
  let q := (c / 10 ^ k)%N in
  let r := (c mod 10 ^ k)%N in
  let twice := (2 * r)%N in
  if (10 ^ k <? twice)%N || ((twice =? 10 ^ k)%N && N.odd q)
  then (q + 1)%N else q.

(** Drop the last [k] digits of [c], rounding half away from zero
    ([_round_half_up]: up when the first dropped digit is 5..9). *)
Definition drop_half_up (c : N) (k : N) : N :=
  let q := (c / 10 ^ k)%N in
  let r := (c mod 10 ^ k)%N in
  if (10 ^ k <=? 2 * r)%N then (q + 1)%N else q.

(** [Decimal._fix]: round a finite result to [prec] digits. *)
Definition fix_ (d : Decimal) : Decimal :=
  match d with
  | DFin s c e =>
      let n := ndigits c in
      if (n <=? prec)%N then d
      else
        let k := (n - prec)%N in
        let c' := drop_half_even c k in
        if (prec <? ndigits c')%N
        then DFin s (c' / 10) (e + Z.of_N k + 1)
        else DFin s c' (e + Z.of_N k)
  | _ => d
  end.

(** [Decimal(str(z))] for a Python int. *)
Definition of_int (z : Z) : Decimal := DFin (z <? 0)%Z (Z.abs_N z) 0.

Definition is_zero (d : Decimal) : bool :=
  match d with DFin _ c _ => (c =? 0)%N | _ => false end.

(** [a * b] ([Decimal.__mul__]). *)
Definition mul (a b : Decimal) : Res Decimal :=
  match a, b with
  | DNaN, _ | _, DNaN => Ok DNaN
  | DInf s, DInf t => Ok (DInf (xorb s t))
  | DInf s, DFin t c _ | DFin t c _, DInf s =>
      if (c =? 0)%N then Raise InvalidOperation else Ok (DInf (xorb s t))
  | DFin s c e, DFin t d f => Ok (fix_ (DFin (xorb s t) (c * d) (e + f)))
  end.

(** [d.quantize(Decimal('0.01'), rounding=ROUND_HALF_UP)]. *)
Definition quantize_2_half_up (d : Decimal) : Res Decimal :=
  match d with
  | DNaN => Ok DNaN
  | DInf _ => Raise InvalidOperation
  | DFin s c e =>
      if (c =? 0)%N then Ok (DFin s 0 (-2))
      else if (Z.of_N prec <? Z.of_N (ndigits c) + e + 2)%Z
      then Raise InvalidOperation
      else
        let c' := if (-2 <=? e)%Z
                  then (c * 10 ^ Z.to_N (e + 2))%N
                  else drop_half_up c (Z.to_N (-2 - e)) in
        if (prec <? ndigits c')%N then Raise InvalidOperation
        else Ok (DFin s c' (-2))
  end.

Fixpoint strip_zeros (fuel : nat) (c : N) (e ideal : Z) : N * Z :=
  match fuel with
  | O => (c, e)
  | S fuel' =>
      if (e <? ideal)%Z && (c mod 10 =? 0)%N
      then strip_zeros fuel' (c / 10) (e + 1) ideal
      else (c, e)
  end.

(** [a / b] ([Decimal.__truediv__]). *)
Definition div (a b : Decimal) : Res Decimal :=
  match a, b with
  | DNaN, _ | _, DNaN => Ok DNaN
  | DInf _, DInf _ => Raise InvalidOperation
  | DInf s, DFin t _ _ => Ok (DInf (xorb s t))
  | DFin s _ _, DInf t => Ok (DFin (xorb s t) 0 Etiny)
  | DFin s c e, DFin t d f =>
      let sign := xorb s t in
      if (d =? 0)%N then
        if (c =? 0)%N then Raise InvalidOperation else Raise DivisionByZero
      else if (c =? 0)%N then Ok (fix_ (DFin sign 0 (e - f)))
      else
        let shift := (Z.of_N (ndigits d) - Z.of_N (ndigits c) + Z.of_N prec + 1)%Z in
        let exp := (e - f - shift)%Z in
        let num := if (0 <=? shift)%Z then (c * 10 ^ Z.to_N shift)%N else c in
        let den := if (0 <=? shift)%Z then d else (d * 10 ^ Z.to_N (- shift))%N in
        let coeff := (num / den)%N in
        let remainder := (num mod den)%N in
        if (remainder =? 0)%N then
          let '(coeff', exp') :=
            strip_zeros (N.to_nat (ndigits coeff)) coeff exp (e - f) in
          Ok (fix_ (DFin sign coeff' exp'))
        else
          let coeff' := if (coeff mod 5 =? 0)%N then (coeff + 1)%N else coeff in
          Ok (fix_ (DFin sign coeff' exp))
  end.

(** The rational a finite decimal denotes. *)
Definition value (d : Decimal) : Q :=
  match d with
  | DFin s c e =>
      let v := (inject_Z (Z.of_N c) * 10 ^ e)%Q in
      if s then (- v)%Q else v
  | _ => 0%Q
  end.

End Dec.
Export Dec.

(** ** binary64 floats: [float(Decimal)] and [Decimal(str(float))] *)

Module Flt.

(** Is [n / d >= b ^ k] ([d > 0], [k] of either sign)? *)
Definition ratio_ge_pow (b n d : N) (k : Z) : bool :=
  if (0 <=? k)%Z then (d * b ^ Z.to_N k <=? n)%N
  else (d <=? n * b ^ Z.to_N (- k))%N.

(** The binary64 nearest to [n / d], ties to even; overflow gives
    infinity.  This is what [float(str)] computes (correctly rounded). *)
Definition round_nearest (sign : bool) (n d : N) : PyFloat :=
  if (n =? 0)%N then FFin sign 0 (-1074)
  else
    let e1 := (Z.of_N (N.log2 n) - Z.of_N (N.log2 d) - 52)%Z in
    let e2 := if ratio_ge_pow 2 n d (e1 + 52) then e1 else (e1 - 1)%Z in
    let e := Z.max e2 (-1074) in
    let num := if (0 <=? e)%Z then n else (n * 2 ^ Z.to_N (- e))%N in
    let den := if (0 <=? e)%Z then (d * 2 ^ Z.to_N e)%N else d in
    let q := (num / den)%N in
    let r := (num mod den)%N in
    let m := if (den <? 2 * r)%N || ((2 * r =? den)%N && N.odd q)
             then (q + 1)%N else q in
    let '(m', e') := if (m =? 2 ^ 53)%N then ((2 ^ 52)%N, (e + 1)%Z) else (m, e) in
    if (971 <? e')%Z then FInf sign else FFin sign m' e'.

(** [c * 10^x] as a fraction. *)
Definition frac10 (c : N) (x : Z) : N * N :=
  if (0 <=? x)%Z then ((c * 10 ^ Z.to_N x)%N, 1%N)
  else (c, (10 ^ Z.to_N (- x))%N).

(** [float(d)] for a Decimal [d] ([Decimal.__float__]). *)
Definition of_decimal (d : Decimal) : PyFloat :=
  match d with
  | DFin s c x => let '(n, dd) := frac10 c x in round_nearest s n dd
  | DInf s => FInf s
  | DNaN => FNaN
  end.

(** [floor(log10(n / d))] for [n, d > 0]. *)
Definition ilog10 (n d : N) : Z :=
  let g := (Z.of_N (ndigits n) - Z.of_N (ndigits d))%Z in
  if ratio_ge_pow 10 n d g then g else (g - 1)%Z.

(** The candidates with [digits] significant digits next to [m * 2^e]:
    the first of them that reads back as the same float, the nearer one
    when both do. *)
Definition repr_try (sign : bool) (m : N) (e : Z) (l10 : Z) (digits : N)
  : option (N * Z) :=
  let vn := if (0 <=? e)%Z then (m * 2 ^ Z.to_N e)%N else m in
  let vd := if (0 <=? e)%Z then 1%N else (2 ^ Z.to_N (- e))%N in
  let x := (l10 - (Z.of_N digits - 1))%Z in
  let num := if (0 <=? x)%Z then vn else (vn * 10 ^ Z.to_N (- x))%N in
  let den := if (0 <=? x)%Z then (vd * 10 ^ Z.to_N x)%N else vd in
  let lo := (num / den)%N in
  let r := (num mod den)%N in
  let reads_back c :=
    bool_decide (of_decimal (DFin sign c x) = FFin sign m e) in
  if (r =? 0)%N then Some (lo, x)
  else
    match reads_back lo, reads_back (lo + 1)%N with
    | true, true =>
        if (2 * r <? den)%N || ((2 * r =? den)%N && N.even lo)
        then Some (lo, x) else Some ((lo + 1)%N, x)
    | true, false => Some (lo, x)
    | false, true => Some ((lo + 1)%N, x)
    | false, false => None
    end.

Fixpoint repr_search (fuel : nat) (sign : bool) (m : N) (e : Z) (l10 : Z)
  (digits : N) : N * Z :=
  match fuel with
  | O => (m, e)
  | S fuel' =>
      match repr_try sign m e l10 digits with
      | Some r => r
      | None => repr_search fuel' sign m e l10 (digits + 1)
      end
  end.

Fixpoint strip10 (fuel : nat) (c : N) (x : Z) : N * Z :=
  match fuel with
  | O => (c, x)
  | S fuel' =>
      if (c mod 10 =? 0)%N && negb (c =? 0)%N
      then strip10 fuel' (c / 10) (x + 1) else (c, x)
  end.

(** The shortest digit string [D] and exponent [x] with [D * 10^x]
    reading back as the float (what [repr] prints), for [m > 0]. *)
Definition shortest (sign : bool) (m : N) (e : Z) : N * Z :=
  let vn := if (0 <=? e)%Z then (m * 2 ^ Z.to_N e)%N else m in
  let vd := if (0 <=? e)%Z then 1%N else (2 ^ Z.to_N (- e))%N in
  let '(c, x) := repr_search 17 sign m e (ilog10 vn vd) 1 in
  strip10 17 c x.

(** [Decimal(str(f))]: [repr] prints fixed notation when the decimal
    point position is in (-4, 16] (with ".0" appended to an integer) and
    exponent notation otherwise; the Decimal constructor keeps every
    printed digit. *)
Definition to_decimal (f : PyFloat) : Decimal :=
  match f with
  | FNaN => DNaN
  | FInf s => DInf s
  | FFin s m e =>
      if (m =? 0)%N then DFin s 0 (-1)
      else
        let '(c, x) := shortest s m e in
        let decpt := (x + Z.of_N (ndigits c))%Z in
        if (0 <=? x)%Z && (decpt <=? 16)%Z
        then DFin s (c * 10 ^ Z.to_N (x + 1)) (-1)
        else DFin s c x
  end.

Fixpoint zeros (k : nat) : string :=
  match k with O => "" | S k' => String "0" (zeros k') end.

(** [repr(f)], the text [str(f)] and f-strings print. *)
Definition repr (f : PyFloat) : string :=
  match f with
  | FNaN => "nan"
  | FInf s => if s then "-inf" else "inf"
  | FFin s m e =>
      (if s then "-" else "") +:+
      if (m =? 0)%N then "0.0"
      else
        let '(c, x) := shortest s m e in
        let ds : string := pretty c in
        let n := Z.of_N (ndigits c) in
        let decpt := (x + n)%Z in
        if (-4 <? decpt)%Z && (decpt <=? 16)%Z then
          if (decpt <=? 0)%Z then "0." +:+ zeros (Z.to_nat (- decpt)) +:+ ds
          else if (n <=? decpt)%Z then ds +:+ zeros (Z.to_nat (decpt - n)) +:+ ".0"
          else String.substring 0 (Z.to_nat decpt) ds +:+ "." +:+
               String.substring (Z.to_nat decpt) (Z.to_nat (n - decpt)) ds
        else
          let ex := (decpt - 1)%Z in
          let es : string := pretty (Z.abs ex) in
          String.substring 0 1 ds +:+
          (if (1 <? n)%Z then "." +:+ String.substring 1 (Z.to_nat (n - 1)) ds else "") +:+
          "e" +:+ (if (ex <? 0)%Z then "-" else "+") +:+
          (if (Z.abs ex <? 10)%Z then "0" else "") +:+ es
  end.

End Flt.

(** ** str: the methods the engine calls on currency codes

    Text is a [string] of bytes.  [upper] and [strip] are modelled on the
    ASCII range, where currency codes live; bytes above 127 are kept as
    they are. *)

Module Str.

Definition is_space (a : ascii) : bool :=
  let n := N_of_ascii a in
  ((9 <=? n)%N && (n <=? 13)%N) || ((28 <=? n)%N && (n <=? 32)%N).

Definition upper_char (a : ascii) : ascii :=
  let n := N_of_ascii a in
  if (97 <=? n)%N && (n <=? 122)%N then ascii_of_N (n - 32) else a.

(** [s.upper()] *)
Fixpoint upper (s : string) : string :=
  match s with
  | EmptyString => EmptyString
  | String a s' => String (upper_char a) (upper s')
  end.

Fixpoint lstrip (s : string) : string :=
  match s with
  | EmptyString => EmptyString
  | String a s' => if is_space a then lstrip s' else s
  end.

Fixpoint rstrip (s : string) : string :=
  match s with
  | EmptyString => EmptyString
  | String a s' =>
      match rstrip s' with
      | EmptyString => if is_space a then EmptyString else String a EmptyString
      | rest => String a rest
      end
  end.

(** [s.strip()] *)
Definition strip (s : string) : string := rstrip (lstrip s).

(** [sep.join(items)] *)
Definition join (sep : string) (items : list string) : string :=
  String.concat sep items.

(** [sub in s] *)
Definition contains (s sub : string) : Prop :=
  exists pre post, s = pre +:+ sub +:+ post.

End Str.

(** ** src/core/cache.py *)

Module Cache.

(** What [datetime.fromisoformat(data['timestamp'])] makes of the stored
    field. *)
Inductive TimestampField :=
| TsNaive (t : Z)     (* an ISO string without offset: the datetime [t] *)
| TsAware (t : Z)     (* an ISO string with a UTC offset *)
| TsBadText           (* a str that is no ISO date: ValueError *)
| TsNotText.          (* not a str: TypeError *)

(** What [json.load] makes of a cache file. *)
Inductive DiskFile :=
| NotJson             (* not a JSON text (also: empty or cut short) *)
| JsonNotObject       (* a JSON list, string, number, boolean or null *)
| JsonObject (timestamp : option TimestampField) (value : option PyVal).

(** How the environment lets one [open(..., 'w')] / [json.dump] go. *)
Inductive WriteOutcome :=
| WriteOk
| OpenFails           (* open raises before the file is touched *)
| DumpFails.          (* the file was truncated by open, the dump stops part way *)

Record CacheManager := mkCache {
  ttl : Z;                                  (* seconds *)
  _memory_cache : gmap string PyVal;
  _timestamps : gmap string Z;              (* microseconds *)
  cache_dir : gmap string DiskFile          (* [key].json -> content *)
}.

(** [CacheManager(ttl_seconds)] over an existing directory. *)
Definition new (ttl_seconds : Z) (dir : gmap string DiskFile) : CacheManager :=
  mkCache ttl_seconds ∅ ∅ dir.

(** [timedelta(seconds=self.ttl)] in microseconds. *)
Definition ttl_delta (c : CacheManager) : Z := (ttl c * 1000000)%Z.

Definition _is_valid (c : CacheManager) (now : Z) (key : string) : bool :=
  match _timestamps c !! key with
  | None => false
  | Some ts => bool_decide (now - ts < ttl_delta c)%Z
  end.

(** [cache_file.unlink(missing_ok=True)] *)
Definition unlink (c : CacheManager) (key : string) : CacheManager :=
  mkCache (ttl c) (_memory_cache c) (_timestamps c) (base.delete key (cache_dir c)).

Definition delete (c : CacheManager) (key : string) : CacheManager :=
  mkCache (ttl c) (base.delete key (_memory_cache c))
          (base.delete key (_timestamps c)) (base.delete key (cache_dir c)).

(** The body of the [try] in [get]: the value to return (promoted into
    memory), [Ok None] when the file is stale and was unlinked, or the
    exception raised. *)
Definition read_file (c : CacheManager) (now : Z) (key : string) (f : DiskFile)
  : Res (option PyVal) * CacheManager :=
  match f with
  | NotJson => (Raise JSONDecodeError, c)
  | JsonNotObject => (Raise TypeError, c)
  | JsonObject None _ => (Raise (KeyError "timestamp"), c)
  | JsonObject (Some TsNotText) _ => (Raise TypeError, c)
  | JsonObject (Some TsBadText) _ => (Raise (ValueError "Invalid isoformat string"), c)
  | JsonObject (Some (TsAware _)) _ => (Raise TypeError, c)
  | JsonObject (Some (TsNaive t)) value =>
      if bool_decide (now - t < ttl_delta c)%Z then
        match value with
        | None => (Raise (KeyError "value"), c)
        | Some v =>
            (Ok (Some v),
             mkCache (ttl c) (<[key := v]> (_memory_cache c))
                     (<[key := t]> (_timestamps c)) (cache_dir c))
        end
      else (Ok None, unlink c key)
  end.

(** [CacheManager.get]; Python's [None] is [VNone]. *)
Definition get (c : CacheManager) (now : Z) (key : string)
  : Res PyVal * CacheManager :=
  match _memory_cache c !! key with
  | Some v =>
      if _is_valid c now key then (Ok v, c)
      else (Ok VNone, delete c key)
  | None =>
      match cache_dir c !! key with
      | None => (Ok VNone, c)
      | Some f =>
          match read_file c now key f with
          | (Ok (Some v), c') => (Ok v, c')
          | (Ok None, c') => (Ok VNone, c')
          | (Raise JSONDecodeError, c')
          | (Raise (KeyError _), c')
          | (Raise (ValueError _), c') => (Ok VNone, unlink c' key)
          | (Raise e, c') => (Raise e, c')
          end
      end
  end.

(** [CacheManager.set] *)
Definition set (c : CacheManager) (now : Z) (key : string) (value : PyVal)
  (io : WriteOutcome) : Res unit * CacheManager :=
  let mem := <[key := value]> (_memory_cache c) in
  let stamps := <[key := now]> (_timestamps c) in
  match io with
  | OpenFails => (Raise OSError, mkCache (ttl c) mem stamps (cache_dir c))
  | DumpFails =>
      (Raise OSError, mkCache (ttl c) mem stamps (<[key := NotJson]> (cache_dir c)))
  | WriteOk =>
      (Ok tt,
       mkCache (ttl c) mem stamps
               (<[key := JsonObject (Some (TsNaive now)) (Some value)]> (cache_dir c)))
  end.

(** [CacheManager.clear] *)
Definition clear (c : CacheManager) : CacheManager := mkCache (ttl c) ∅ ∅ ∅.

End Cache.

(** ** logging: records instead of formatted lines *)

Module Log.

Inductive Level := DEBUG | INFO | WARNING | ERROR.

#[global] Instance Level_eq_dec : EqDecision Level.
Proof. solve_decision. Defined.

(** One constructor per f-string logged by the sources; the fields are the
    values interpolated. *)
Inductive Msg :=
| Tentando (nome method : string)                 (* "Tentando {nome}.{method}()" *)
| Sucesso (nome : string)                         (* "Sucesso com {nome}" *)
| Falha (nome : string) (e : APIErrorData)        (* "Falha em {nome}: {e}" *)
| Convertendo (valor : Decimal) (de para : string)
| TaxaDoCache                                     (* "Taxa obtida do cache" *)
| ConversaoSalva (id : option Z)
| ErroDaAPI (e : APIErrorData)                    (* "Erro da API: {e}" *)
| ErroInesperado (e : Exn)                        (* "Erro inesperado: {e}" *)
| ConversaoMultiplaMsg (valor : Decimal) (de : string) (n : nat)
| ErroAoConverter (moeda : string) (e : Exn).     (* "Erro ao converter para {moeda}: {e}" *)

Definition Record_ : Type := Level * Msg.

End Log.

(** ** src/api/manager.py *)

Module Manager.

Section Fallback.
(** A client is anything with a name and a way to run the requested
    method against the outside world [S]. *)
Context {Client S R : Type}.
Variable nome : Client -> string.
Variable method_name : string.
Variable call : Client -> S -> Res R * S.

(** The message and details of the final [raise APIError(...)]. *)
Definition todas_falharam (errors : list string) : APIErrorData :=
  mkAPIError ("Todas as APIs falharam: " +:+ Str.join "; " errors) None
             [("errors", VList (VStr <$> errors))].

(** The [for client in self.clients] loop with its accumulator
    [errors]; the log lines go to the manager's logger. *)
Fixpoint fallback_loop (clients : list Client) (errors : list string)
  (log : list Log.Record_) (s : S) : Res R * list Log.Record_ * S :=
  match clients with
  | [] => (Raise (APIError (todas_falharam errors)), log, s)
  | client :: rest =>
      let log1 := log ++ [(Log.DEBUG, Log.Tentando (nome client) method_name)] in
      match call client s with
      | (Ok result, s') =>
          (Ok result, log1 ++ [(Log.DEBUG, Log.Sucesso (nome client))], s')
      | (Raise (APIError e), s') =>
          fallback_loop rest
            (errors ++ [nome client +:+ ": " +:+ message e])
            (log1 ++ [(Log.WARNING, Log.Falha (nome client) e)]) s'
      | (Raise other, s') => (Raise other, log1, s')
      end
  end.

Definition _executar_com_fallback (clients : list Client) (s : S)
  : Res R * list Log.Record_ * S :=
  fallback_loop clients [] [] s.

End Fallback.

End Manager.

(** ** src/api/exchangerate.py *)

Module ExchangeRate.

Definition nome : string := "ExchangeRate-API".

Definition mensagens : gmap string string :=
  list_to_map
    [("invalid-key", "API key inválida");
     ("inactive-account", "Conta inativa");
     ("quota-reached", "Limite de requisições atingido");
     ("unsupported-code", "Moeda não suportada")].

(** [ExchangeRateClient._tratar_erro(data)].  [mensagens.get] hashes its
    key, which fails for a list or a dict. *)
Definition _tratar_erro (data : gmap string PyVal) : Res unit :=
  match data !! "result" with
  | Some (VStr result) =>
      if bool_decide (result = "error") then
        let error_type := default (VStr "unknown") (data !! "error-type") in
        let raise_with msg :=
          Raise (APIError (mkAPIError msg None [("error_type", error_type)])) in
        match error_type with
        | VList _ | VDict _ => Raise TypeError
        | VStr t => raise_with (default ("Erro da API: " +:+ t) (mensagens !! t))
        | VNone => raise_with "Erro da API: None"
        | VBool b => raise_with ("Erro da API: " +:+ if b then "True" else "False")
        | VInt z => raise_with ("Erro da API: " +:+ pretty z)
        | VFloat f => raise_with ("Erro da API: " +:+ Flt.repr f)
        end
      else Ok tt
  | _ => Ok tt
  end.

End ExchangeRate.

(** ** src/core/models.py *)

Module Conversao.

Record t := mk {
  id : option Z;
  valor_original : Decimal;
  valor_convertido : Decimal;
  moeda_origem : string;
  moeda_destino : string;
  taxa : Decimal;
  taxa_inversa : Decimal;
  timestamp : Z;
  notas : option string
}.

(** [Field(..., gt=0)] on a Decimal field: a finite value above zero. *)
Definition field_gt0 (d : Decimal) : bool :=
  match d with
  | DFin s c _ => negb s && negb (c =? 0)%N
  | _ => false
  end.

(** [Conversao(valor_original=..., ...)]: pydantic validates the two
    constrained fields; [id] and [notas] default to [None], [timestamp]
    to [datetime.now()]. *)
Definition new (valor_original valor_convertido : Decimal)
  (moeda_origem moeda_destino : string) (taxa taxa_inversa : Decimal)
  (now : Z) : Res t :=
  if field_gt0 valor_original && field_gt0 valor_convertido
  then Ok (mk None valor_original valor_convertido moeda_origem moeda_destino
              taxa taxa_inversa now None)
  else Raise ValidationError.

Definition with_id (c : t) (i : Z) : t :=
  mk (Some i) (valor_original c) (valor_convertido c) (moeda_origem c)
     (moeda_destino c) (taxa c) (taxa_inversa c) (timestamp c) (notas c).

End Conversao.

Module ConversaoMultipla.

Record t := mk {
  id : option Z;
  valor_original : Decimal;
  moeda_origem : string;
  conversoes : list Conversao.t;
  timestamp : Z
}.

Definition with_id (m : t) (i : Z) : t :=
  mk (Some i) (valor_original m) (moeda_origem m) (conversoes m) (timestamp m).

End ConversaoMultipla.

(** ** src/core/conversor.py *)

Module Conversor.

(** The argument [valor], as [str(valor)] prints it: an int prints
    itself, a finite float prints the shortest decimal that reads back
    ([Flt.to_decimal]).  The engine looks at [valor] only through
    [valor <= 0] and [Decimal(str(valor))], both read off this literal. *)
Record Valor := mkValor { v_sign : bool; v_coef : N; v_exp : Z }.

Definition valor_le0 (v : Valor) : bool := v_sign v || (v_coef v =? 0)%N.

(** [Decimal(str(valor))] *)
Definition valor_decimal (v : Valor) : Decimal :=
  DFin (v_sign v) (v_coef v) (v_exp v).

Definition valor_of_int (z : Z) : Valor := mkValor (z <? 0)%Z (Z.abs_N z) 0.

(** What one provider answers to one request, and how long it takes
    (microseconds). *)
Record Response := mkResponse { outcome : Res Decimal; latency : Z }.

(** The outside world: the answer to the [n]-th outbound request, the
    fate of the [n]-th cache file write, and the decimal module's reading
    of a text payload ([Decimal(s)] for a str found in the cache). *)
Record Env := mkEnv {
  respond : nat -> string -> string -> string -> Response;
  disk_write : nat -> Cache.WriteOutcome;
  Decimal_of_text : string -> Res Decimal
}.

Record ConversorMoedas := mkConversor {
  cache : Cache.CacheManager;
  clients : list string;                        (* self.api.clients, by name *)
  now : Z;                                      (* the clock *)
  requests : list (string * string * string);   (* outbound calls made *)
  writes : nat;                                 (* cache file writes tried *)
  logger : list Log.Record_;                    (* "ConversorMoedas" *)
  api_logger : list Log.Record_;                (* "APIManager" *)
  historico : list Conversao.t;                 (* rows of ConversaoDB *)
  multiplas : list ConversaoMultipla.t          (* rows of ConversaoMultiplaDB *)
}.

Definition set_cache (st : ConversorMoedas) (c : Cache.CacheManager) :=
  mkConversor c (clients st) (now st) (requests st) (writes st) (logger st)
              (api_logger st) (historico st) (multiplas st).

Definition log (st : ConversorMoedas) (l : Log.Level) (m : Log.Msg) :=
  mkConversor (cache st) (clients st) (now st) (requests st) (writes st)
              (logger st ++ [(l, m)]) (api_logger st) (historico st) (multiplas st).

Definition api_log (st : ConversorMoedas) (records : list Log.Record_) :=
  mkConversor (cache st) (clients st) (now st) (requests st) (writes st)
              (logger st) (api_logger st ++ records) (historico st) (multiplas st).

(** One client method call: the request goes out, time passes. *)
Definition call_client (env : Env) (de para : string) (client : string)
  (st : ConversorMoedas) : Res Decimal * ConversorMoedas :=
  let r := respond env (length (requests st)) client de para in
  (outcome r,
   mkConversor (cache st) (clients st) (now st + latency r)
               (requests st ++ [(client, de, para)]) (writes st) (logger st)
               (api_logger st) (historico st) (multiplas st)).

(** [self.api.obter_taxa_par(de_moeda, para_moeda)] *)
Definition obter_taxa_par (env : Env) (st : ConversorMoedas) (de para : string)
  : Res Decimal * ConversorMoedas :=
  let '(r, records, st') :=
    Manager._executar_com_fallback (fun c : string => c) "obter_taxa_par"
      (call_client env de para) (clients st) st in
  (r, api_log st' records).

(** [Decimal(str(taxa))] for a payload found in the cache. *)
Definition Decimal_of_str (env : Env) (v : PyVal) : Res Decimal :=
  match v with
  | VFloat f => Ok (Flt.to_decimal f)
  | VInt z => Ok (Dec.of_int z)
  | VStr s => Decimal_of_text env s
  | VNone | VBool _ | VList _ | VDict _ => Raise InvalidOperation
  end.

Definition cache_key (de para : string) : string :=
  "taxa:" +:+ de +:+ ":" +:+ para.

Definition cache_write (env : Env) (st : ConversorMoedas) (key : string)
  (value : PyVal) : Res unit * ConversorMoedas :=
  let '(w, c) := Cache.set (cache st) (now st) key value (disk_write env (writes st)) in
  (w, mkConversor c (clients st) (now st) (requests st) (S (writes st))
                  (logger st) (api_logger st) (historico st) (multiplas st)).

(** [converter], lines 136-144: the rate from the cache, or from the
    providers and then into the cache as a float. *)
Definition obter_taxa (env : Env) (st : ConversorMoedas) (de para : string)
  : Res Decimal * ConversorMoedas :=
  match Cache.get (cache st) (now st) (cache_key de para) with
  | (Raise e, c) => (Raise e, set_cache st c)
  | (Ok VNone, c) =>
      match obter_taxa_par env (set_cache st c) de para with
      | (Raise e, st1) => (Raise e, st1)
      | (Ok taxa, st1) =>
          match cache_write env st1 (cache_key de para) (VFloat (Flt.of_decimal taxa)) with
          | (Raise e, st2) => (Raise e, st2)
          | (Ok _, st2) => (Ok taxa, st2)
          end
      end
  | (Ok cached, c) =>
      match Decimal_of_str env cached with
      | Raise e => (Raise e, set_cache st c)
      | Ok taxa => (Ok taxa, log (set_cache st c) Log.DEBUG Log.TaxaDoCache)
      end
  end.

(** [converter], lines 146-159: the arithmetic and the result object. *)
Definition calcular (valor_decimal taxa : Decimal) (de para : string) (now : Z)
  : Res Conversao.t :=
  produto ← Dec.mul valor_decimal taxa;
  resultado ← Dec.quantize_2_half_up produto;
  taxa_inversa ← (if Dec.is_zero taxa then Ok (DFin false 0 0)
                  else Dec.div (Dec.of_int 1) taxa);
  Conversao.new valor_decimal resultado de para taxa taxa_inversa now.

(** [repo.salvar(conversao)] inside [session_scope]. *)
Definition salvar_conversao (st : ConversorMoedas) (c : Conversao.t)
  : Conversao.t * ConversorMoedas :=
  let new_id := (Z.of_nat (length (historico st)) + 1)%Z in
  let c' := Conversao.with_id c new_id in
  (c', log (mkConversor (cache st) (clients st) (now st) (requests st) (writes st)
                        (logger st) (api_logger st) (historico st ++ [c'])
                        (multiplas st))
           Log.INFO (Log.ConversaoSalva (Some new_id))).

(** The [try] block of [converter]. *)
Definition converter_try (env : Env) (st : ConversorMoedas) (valor : Valor)
  (de para : string) (salvar : bool) : Res Conversao.t * ConversorMoedas :=
  match obter_taxa env st de para with
  | (Raise e, st1) => (Raise e, st1)
  | (Ok taxa, st1) =>
      match calcular (valor_decimal valor) taxa de para (now st1) with
      | Raise e => (Raise e, st1)
      | Ok conversao =>
          if salvar then
            let '(c, st2) := salvar_conversao st1 conversao in (Ok c, st2)
          else (Ok conversao, st1)
      end
  end.

Definition normalizar (moeda : string) : string := Str.strip (Str.upper moeda).

(** [ConversorMoedas.converter] *)
Definition converter (env : Env) (st : ConversorMoedas) (valor : Valor)
  (de_moeda para_moeda : string) (salvar : bool)
  : Res Conversao.t * ConversorMoedas :=
  if valor_le0 valor then (Raise (ValueError "Valor deve ser maior que zero"), st)
  else
    let de := normalizar de_moeda in
    let para := normalizar para_moeda in
    if bool_decide (de = para)
    then (Raise (ValueError "Moedas de origem e destino devem ser diferentes"), st)
    else
      let st0 := log st Log.INFO (Log.Convertendo (valor_decimal valor) de para) in
      match converter_try env st0 valor de para salvar with
      | (Ok c, st1) => (Ok c, st1)
      | (Raise (APIError e), st1) =>
          (Raise (APIError e), log st1 Log.ERROR (Log.ErroDaAPI e))
      | (Raise e, st1) => (Raise e, log st1 Log.ERROR (Log.ErroInesperado e))
      end.

(** The [for moeda in para_moedas] loop of [converter_multiplo]. *)
Fixpoint converter_cada (env : Env) (st : ConversorMoedas) (valor : Valor)
  (de : string) (para_moedas : list string)
  : list Conversao.t * ConversorMoedas :=
  match para_moedas with
  | [] => ([], st)
  | moeda :: rest =>
      if bool_decide (moeda = de) then converter_cada env st valor de rest
      else
        match converter env st valor de moeda false with
        | (Ok conv, st1) =>
            let '(conversoes, st2) := converter_cada env st1 valor de rest in
            (conv :: conversoes, st2)
        | (Raise e, st1) =>
            converter_cada env (log st1 Log.WARNING (Log.ErroAoConverter moeda e))
                           valor de rest
        end
  end.

(** [repo.salvar_multipla(multipla)] inside [session_scope]. *)
Definition salvar_multipla (st : ConversorMoedas) (m : ConversaoMultipla.t)
  : ConversaoMultipla.t * ConversorMoedas :=
  let new_id := (Z.of_nat (length (multiplas st)) + 1)%Z in
  let m' := ConversaoMultipla.with_id m new_id in
  (m', mkConversor (cache st) (clients st) (now st) (requests st) (writes st)
                   (logger st) (api_logger st) (historico st) (multiplas st ++ [m'])).

(** [ConversorMoedas.converter_multiplo] *)
Definition converter_multiplo (env : Env) (st : ConversorMoedas) (valor : Valor)
  (de_moeda : string) (para_moedas : list string)
  : Res ConversaoMultipla.t * ConversorMoedas :=
  let de := normalizar de_moeda in
  let paras := normalizar <$> para_moedas in
  let st0 := log st Log.INFO
                 (Log.ConversaoMultiplaMsg (valor_decimal valor) de (length paras)) in
  let '(conversoes, st1) := converter_cada env st0 valor de paras in
  let multipla :=
    ConversaoMultipla.mk None (valor_decimal valor) de conversoes (now st1) in
  let '(m, st2) := salvar_multipla st1 multipla in
  (Ok m, st2).

(** Time passing between two calls. *)
Definition sleep (st : ConversorMoedas) (dt : Z) : ConversorMoedas :=
  mkConversor (cache st) (clients st) (now st + dt) (requests st) (writes st)
              (logger st) (api_logger st) (historico st) (multiplas st).

(** [ConversorMoedas(config)] with an empty log and history. *)
Definition init (cache_ttl : Z) (dir : gmap string Cache.DiskFile)
  (clients : list string) (now : Z) : ConversorMoedas :=
  mkConversor (Cache.new cache_ttl dir) clients now [] 0 [] [] [] [].

End Conversor.

(** ** Specification-side definitions

    What the properties below are stated with: mathematical rounding on
    rationals, the runs of the fallback chain and of a batch as relations,
    and one concrete deployment used in the examples. *)

Module Spec.

(** Rounding to two decimal places, ties away from zero (HALF_UP), on
    the rationals. *)
Definition round_half_up_2 (x : Q) : Q :=
  if Qle_bool 0 x
  then (inject_Z (Qfloor (x * 100 + (1 # 2))) / 100)%Q
  else (- (inject_Z (Qfloor (- x * 100 + (1 # 2))) / 100))%Q.

Section Fallback.
Context {Client S R : Type}.
Variable nome : Client -> string.
Variable call : Client -> S -> Res R * S.

(** [falham cs s es s']: tried in order from [s], every client of
    [cs] raises an [APIError]; [es] lists them by name and [s'] is
    the world after the last one. *)
Inductive falham : list Client -> S -> list (string * APIErrorData) -> S -> Prop :=
| falham_nil s : falham [] s [] s
| falham_cons c cs s e s1 es s2 :
    call c s = (Raise (APIError e), s1) ->
    falham cs s1 es s2 ->
    falham (c :: cs) s ((nome c, e) :: es) s2.

(** One entry of the manager's [errors] list. *)
Definition error_line (ne : string * APIErrorData) : string :=
  ne.1 +:+ ": " +:+ message ne.2.

(** The log lines of one failed attempt. *)
Definition failure_log (method_name : string) (ne : string * APIErrorData)
  : list Log.Record_ :=
  [(Log.DEBUG, Log.Tentando ne.1 method_name); (Log.WARNING, Log.Falha ne.1 ne.2)].
End Fallback.

(** Records appended to the engine's logger. *)
Definition log_all (st : Conversor.ConversorMoedas) (records : list Log.Record_) :=
  Conversor.mkConversor (Conversor.cache st) (Conversor.clients st) (Conversor.now st)
    (Conversor.requests st) (Conversor.writes st) (Conversor.logger st ++ records)
    (Conversor.api_logger st) (Conversor.historico st) (Conversor.multiplas st).



(** The files [get] heals: not JSON, a missing field, a timestamp that
    is not an ISO date, or an entry of age [ttl] or more. *)
Definition stale_or_undecodable (c : Cache.CacheManager) (now : Z)
  (f : Cache.DiskFile) : Prop :=
  match f with
  | Cache.NotJson => True
  | Cache.JsonObject None _ => True
  | Cache.JsonObject (Some Cache.TsBadText) _ => True
  | Cache.JsonObject (Some (Cache.TsNaive t)) value =>
      (Cache.ttl_delta c <= now - t)%Z \/ value = None
  | _ => False
  end.

(** The files on which [get] raises: JSON that is no object, or whose
    timestamp is not a string or carries a UTC offset. *)
Definition wrong_shape (f : Cache.DiskFile) : bool :=
  match f with
  | Cache.JsonNotObject
  | Cache.JsonObject (Some Cache.TsNotText) _
  | Cache.JsonObject (Some (Cache.TsAware _)) _ => true
  | _ => false
  end.


(** The coefficient [quantize] computes at exponent -2. *)
Definition quantized_coef (c : N) (e : Z) : N :=
  if (-2 <=? e)%Z then (c * 10 ^ Z.to_N (e + 2))%N
  else Dec.drop_half_up c (Z.to_N (-2 - e)).

End Spec.

(** A deployment for the examples: the key-less provider quotes
    USD->BRL at 5.0745 and USD->EUR at 0.9215 and knows no other
    currency; the keyed provider is down; one hour of cache. *)

Module Exemplo.
Import Conversor.

Definition nao_encontrada (para : string) : Exn :=
  APIError (mkAPIError ("Moeda " +:+ para +:+ " não encontrada") None []).

Definition fora_do_ar : Exn :=
  APIError (mkAPIError "Erro de conexão com ExchangeRate-API" None []).

Definition respostas (n : nat) (client de para : string) : Response :=
  if bool_decide (client = "Frankfurter") then
    if bool_decide (de = "USD" ∧ para = "BRL")
    then mkResponse (Ok (DFin false 50745 (-4))) 250000
    else if bool_decide (de = "USD" ∧ para = "EUR")
    then mkResponse (Ok (DFin false 9215 (-4))) 250000
    else mkResponse (Raise (nao_encontrada para)) 250000
  else mkResponse (Raise fora_do_ar) 10000000.

Definition env : Env :=
  mkEnv respostas (fun _ => Cache.WriteOk) (fun _ => Raise InvalidOperation).

Definition inicio : ConversorMoedas :=
  init 3600 ∅ ["Frankfurter"; "ExchangeRate-API"] 0.

(** The engine after looking up USD->BRL for the first time. *)
Definition apos_usd_brl : ConversorMoedas :=
  (obter_taxa env inicio "USD" "BRL").2.

(** A provider that quotes every pair at the same rate. *)
Definition env_taxa (taxa : Decimal) : Env :=
  mkEnv (fun _ _ _ _ => mkResponse (Ok taxa) 250000)
        (fun _ => Cache.WriteOk) (fun _ => Raise InvalidOperation).

End Exemplo.

(** ** The rest of the sources

    The functions around the pipeline: the operators Python applies to
    the JSON-shaped payloads, the HTTP layer of [src/api/base.py], the two
    provider clients ([src/api/frankfurter.py], [src/api/exchangerate.py]),
    the manager's constructor and currency queries, the [cached]
    decorator and the statistics of the cache, the engine's currency
    queries and comparison, and [src/utils].  A method that makes one
    request takes the way that request ends as an argument. *)

Module PyOps.

(** A dict is given by its items, in order; their keys are distinct. *)

(** [d.get(key)] on the items of a dict. *)
Definition dict_get (fields : list (string * PyVal)) (key : string) : option PyVal :=
  (list_to_map fields : gmap string PyVal) !! key.

Fixpoint startswith (s p : string) : bool :=
  match p, s with
  | EmptyString, _ => true
  | String a p', String b s' => if Ascii.eqb a b then startswith s' p' else false
  | String _ _, EmptyString => false
  end.

(** [sub in s] for two strs. *)
Fixpoint substring (sub s : string) : bool :=
  startswith s sub ||
  match s with
  | EmptyString => false
  | String _ s' => substring sub s'
  end.

(** [data.get(key, default)]: only a dict has the method. *)
Definition get (data : PyVal) (key : string) (default_ : PyVal) : Res PyVal :=
  match data with
  | VDict fields => Ok (default default_ (dict_get fields key))
  | _ => Raise (OtherException "AttributeError")
  end.

(** [s in container] for a str [s]: a key of a dict, an element of a
    list, a substring of a str; nothing else is iterable. *)
Definition contains (container : PyVal) (s : string) : Res bool :=
  match container with
  | VDict fields => Ok (bool_decide (is_Some (dict_get fields s)))
  | VList items =>
      Ok (existsb (fun v => match v with
                            | VStr t => bool_decide (t = s)
                            | _ => false
                            end) items)
  | VStr t => Ok (substring s t)
  | VNone | VBool _ | VInt _ | VFloat _ => Raise TypeError
  end.

(** [container[s]] for a str [s]. *)
Definition getitem (container : PyVal) (s : string) : Res PyVal :=
  match container with
  | VDict fields =>
      match dict_get fields s with
      | Some v => Ok v
      | None => Raise (KeyError s)
      end
  | _ => Raise TypeError
  end.

(** [d.items()] *)
Definition items (d : PyVal) : Res (list (string * PyVal)) :=
  match d with
  | VDict fields => Ok fields
  | _ => Raise (OtherException "AttributeError")
  end.

(** [Decimal(str(v))]; [parse] is the decimal module reading a text. *)
Definition Decimal_str (parse : string -> Res Decimal) (v : PyVal) : Res Decimal :=
  match v with
  | VFloat f => Ok (Flt.to_decimal f)
  | VInt z => Ok (Dec.of_int z)
  | VStr s => parse s
  | VNone | VBool _ | VList _ | VDict _ => Raise InvalidOperation
  end.

(** [{k: Decimal(str(v)) for k, v in items}] *)
Fixpoint decimais (parse : string -> Res Decimal) (l : list (string * PyVal))
  : Res (list (string * Decimal)) :=
  match l with
  | [] => Ok []
  | (k, v) :: rest =>
      d ← Decimal_str parse v;
      ds ← decimais parse rest;
      Ok ((k, d) :: ds)
  end.


End PyOps.

(** ** src/api/base.py *)

Module Http.

(** How [session.get], [raise_for_status] and [response.json()] end:
    by the handler that catches the exception (a connect timeout is
    caught as [Timeout], which comes first), or with the decoded body. *)
Inductive Transport :=
| Timeout
| ConnectionError
| HTTPError (status : Z) (text : string)
| RequestException (msg : string)       (* any other requests exception *)
| Outra (e : Exn)                       (* not a requests exception *)
| Json (body : PyVal).

(** [APIClient._fazer_requisicao(endpoint)] given how the request ends.
    The debug line "Requisição: {url}" of the client's own logger is the
    same on every path and is not recorded. *)
Definition _fazer_requisicao (nome url_base endpoint : string) (t : Transport)
  : Res PyVal :=
  let url := url_base +:+ endpoint in
  match t with
  | Json body => Ok body
  | Timeout =>
      Raise (APIError (mkAPIError ("Timeout na conexão com " +:+ nome) None
                                  [("url", VStr url)]))
  | ConnectionError =>
      Raise (APIError (mkAPIError ("Erro de conexão com " +:+ nome) None
                                  [("url", VStr url)]))
  | HTTPError status text =>
      Raise (APIError (mkAPIError ("Erro HTTP " +:+ pretty status) (Some status)
                                  [("url", VStr url); ("response", VStr text)]))
  | RequestException msg =>
      Raise (APIError (mkAPIError ("Erro na requisição: " +:+ msg) None
                                  [("url", VStr url)]))
  | Outra e => Raise e
  end.

End Http.

(** ** src/api/frankfurter.py *)

Module FrankfurterClient.

Definition nome : string := "Frankfurter".
Definition url_base : string := "https://api.frankfurter.app".

Definition nao_encontrada (para_moeda : string) : Exn :=
  APIError (mkAPIError ("Moeda " +:+ para_moeda +:+ " não encontrada") None []).

(** [obter_taxa_par(de_moeda, para_moeda)]; [t] is how its request ends. *)
Definition obter_taxa_par (parse : string -> Res Decimal) (t : Http.Transport)
  (de_moeda para_moeda : string) : Res Decimal :=
  data ← Http._fazer_requisicao nome url_base
           ("/latest?from=" +:+ de_moeda +:+ "&to=" +:+ para_moeda) t;
  rates ← PyOps.get data "rates" (VDict []);
  found ← PyOps.contains rates para_moeda;
  if negb found then Raise (nao_encontrada para_moeda)
  else
    v ← PyOps.getitem rates para_moeda;
    PyOps.Decimal_str parse v.

(** [obter_taxas(moeda_base)]: the dict, as its items in order. *)
Definition obter_taxas (parse : string -> Res Decimal) (t : Http.Transport)
  (moeda_base : string) : Res (list (string * Decimal)) :=
  data ← Http._fazer_requisicao nome url_base ("/latest?from=" +:+ moeda_base) t;
  rates ← PyOps.get data "rates" (VDict []);
  fields ← PyOps.items rates;
  PyOps.decimais parse fields.

(** [listar_moedas()]: the result and the new [_moedas_cache]; the
    request is made only when the memo is [None]. *)
Definition listar_moedas (_moedas_cache : PyVal) (t : Http.Transport)
  : Res PyVal * PyVal :=
  match _moedas_cache with
  | VNone =>
      match Http._fazer_requisicao nome url_base "/currencies" t with
      | Ok data => (Ok data, data)
      | Raise e => (Raise e, VNone)
      end
  | memo => (Ok memo, memo)
  end.

(** The comprehension of [obter_historico]. *)
Fixpoint historico_de (parse : string -> Res Decimal) (moeda_destino : string)
  (l : list (string * PyVal)) : Res (list (string * Decimal)) :=
  match l with
  | [] => Ok []
  | (date, values) :: rest =>
      v ← PyOps.get values moeda_destino (VInt 0);
      d ← PyOps.Decimal_str parse v;
      ds ← historico_de parse moeda_destino rest;
      Ok ((date, d) :: ds)
  end.

(** [obter_historico(moeda_base, moeda_destino, data_inicio, data_fim)] *)
Definition obter_historico (parse : string -> Res Decimal) (t : Http.Transport)
  (moeda_base moeda_destino data_inicio data_fim : string)
  : Res (list (string * Decimal)) :=
  data ← Http._fazer_requisicao nome url_base
           ("/" +:+ data_inicio +:+ ".." +:+ data_fim +:+ "?from=" +:+ moeda_base
              +:+ "&to=" +:+ moeda_destino) t;
  rates ← PyOps.get data "rates" (VDict []);
  fields ← PyOps.items rates;
  historico_de parse moeda_destino fields.

End FrankfurterClient.

(** ** src/api/exchangerate.py: the requests *)

Module ExchangeRateClient.

(** [api_key or os.getenv("API_EXCHANGERATE_KEY", "demo")] *)
Definition api_key (given : option string) (getenv : option string) : string :=
  match given with
  | Some k => if bool_decide (k = "") then default "demo" getenv else k
  | None => default "demo" getenv
  end.

Definition url_base (key : string) : string :=
  "https://v6.exchangerate-api.com/v6/" +:+ key.

(** [self._tratar_erro(data)] on whatever [response.json()] gave. *)
Definition tratar (data : PyVal) : Res unit :=
  match data with
  | VDict fields => ExchangeRate._tratar_erro (list_to_map fields)
  | _ => Raise (OtherException "AttributeError")
  end.

Definition sem_taxa : Exn :=
  APIError (mkAPIError "Taxa não encontrada na resposta" None []).

(** [obter_taxa_par(de_moeda, para_moeda)] *)
Definition obter_taxa_par (parse : string -> Res Decimal) (key : string)
  (t : Http.Transport) (de_moeda para_moeda : string) : Res Decimal :=
  data ← Http._fazer_requisicao ExchangeRate.nome (url_base key)
           ("/pair/" +:+ de_moeda +:+ "/" +:+ para_moeda) t;
  _ ← tratar data;
  taxa ← PyOps.get data "conversion_rate" VNone;
  match taxa with
  | VNone => Raise sem_taxa
  | _ => PyOps.Decimal_str parse taxa
  end.

(** [obter_taxas(moeda_base)] *)
Definition obter_taxas (parse : string -> Res Decimal) (key : string)
  (t : Http.Transport) (moeda_base : string) : Res (list (string * Decimal)) :=
  data ← Http._fazer_requisicao ExchangeRate.nome (url_base key)
           ("/latest/" +:+ moeda_base) t;
  _ ← tratar data;
  rates ← PyOps.get data "conversion_rates" (VDict []);
  fields ← PyOps.items rates;
  PyOps.decimais parse fields.



End ExchangeRateClient.

(** ** src/api/manager.py: the constructor and the currency queries *)

Module APIManager.

Inductive Cliente :=
| Frankfurter
| ExchangeRate (key : string).

Definition nome (c : Cliente) : string :=
  match c with
  | Frankfurter => FrankfurterClient.nome
  | ExchangeRate _ => ExchangeRate.nome
  end.

Inductive InitMsg :=
| APIDesconhecida (api_name : string)            (* "API desconhecida: {api_name}" *)
| APIConfigurada (nome : string)                 (* "API configurada: {client.nome}" *)
| ErroAoConfigurar (api_name : string) (e : Exn).

(** The [for api_name in apis] loop of [__init__]; [construir] is what
    the class constructor does: nothing, or the exception it raises. *)
Fixpoint configurar (construir : Cliente -> option Exn) (key : string)
  (apis : list string) : list Cliente * list (Log.Level * InitMsg) :=
  match apis with
  | [] => ([], [])
  | api_name :: rest =>
      let '(clients, records) := configurar construir key rest in
      let tentar c :=
        match construir c with
        | None => (c :: clients, (Log.INFO, APIConfigurada (nome c)) :: records)
        | Some e => (clients, (Log.ERROR, ErroAoConfigurar api_name e) :: records)
        end in
      if bool_decide (api_name = "frankfurter") then tentar Frankfurter
      else if bool_decide (api_name = "exchangerate") then tentar (ExchangeRate key)
      else (clients, (Log.WARNING, APIDesconhecida api_name) :: records)
  end.

(** [APIManager(primary, secondary, api_key)]: the clients, in priority
    order, and what the constructor logs. *)
Definition __init__ (construir : Cliente -> option Exn) (primary : string)
  (secondary given_key getenv : option string)
  : list Cliente * list (Log.Level * InitMsg) :=
  let apis :=
    primary :: match secondary with
               | Some s => if bool_decide (s = "") then [] else [s]
               | None => []
               end in
  configurar construir (ExchangeRateClient.api_key given_key getenv) apis.

Section Moedas.
(** The clients' [listar_moedas] runs against the outside world [S],
    which also holds each client's own memo. *)
Context {Client S : Type}.
Variable nome_de : Client -> string.
Variable listar : Client -> S -> Res PyVal * S.

(** [APIManager.listar_moedas()]: result, new [_moedas_cache], log, world. *)
Definition listar_moedas (clients : list Client) (_moedas_cache : PyVal) (s : S)
  : Res PyVal * PyVal * list Log.Record_ * S :=
  match _moedas_cache with
  | VNone =>
      match Manager._executar_com_fallback nome_de "listar_moedas" listar clients s with
      | (Ok m, records, s') => (Ok m, m, records, s')
      | (Raise e, records, s') => (Raise e, VNone, records, s')
      end
  | memo => (Ok memo, memo, [], s)
  end.

(** [APIManager.verificar_moeda(moeda)] *)
Definition verificar_moeda (clients : list Client) (_moedas_cache : PyVal) (s : S)
  (moeda : string) : Res bool * PyVal * list Log.Record_ * S :=
  match listar_moedas clients _moedas_cache s with
  | (Ok moedas, memo, records, s') =>
      (PyOps.contains moedas (Str.upper moeda), memo, records, s')
  | (Raise (APIError _), memo, records, s') => (Ok false, memo, records, s')
  | (Raise e, memo, records, s') => (Raise e, memo, records, s')
  end.

(** The loop of [APIManager.get_status()]. *)
Fixpoint get_status_loop (clients : list Client) (status : gmap string string)
  (s : S) : Res (gmap string string) * S :=
  match clients with
  | [] => (Ok status, s)
  | client :: rest =>
      match listar client s with
      | (Ok _, s') => get_status_loop rest (<[nome_de client := "online"]> status) s'
      | (Raise (APIError _), s') =>
          get_status_loop rest (<[nome_de client := "offline"]> status) s'
      | (Raise e, s') => (Raise e, s')
      end
  end.

Definition get_status (clients : list Client) (s : S)
  : Res (gmap string string) * S :=
  get_status_loop clients ∅ s.

End Moedas.

End APIManager.

(** ** The providers behind the engine

    The answers of [Conversor.Env] computed by the two clients from what
    the network does. *)

Module Provedores.

Record Mundo := mkMundo {
  http : nat -> string -> Http.Transport * Z;   (* request number, URL *)
  chave : string;                               (* the keyed provider's key *)
  escrita : nat -> Cache.WriteOutcome;
  decimal_de_texto : string -> Res Decimal
}.

(** [client.obter_taxa_par(de, para)] for the client of that name. *)
Definition respond (m : Mundo) (n : nat) (client de para : string)
  : Conversor.Response :=
  if bool_decide (client = FrankfurterClient.nome) then
    let '(t, dt) :=
      http m n (FrankfurterClient.url_base +:+ "/latest?from=" +:+ de +:+ "&to=" +:+ para) in
    Conversor.mkResponse
      (FrankfurterClient.obter_taxa_par (decimal_de_texto m) t de para) dt
  else
    let '(t, dt) :=
      http m n (ExchangeRateClient.url_base (chave m) +:+ "/pair/" +:+ de +:+ "/" +:+ para) in
    Conversor.mkResponse
      (ExchangeRateClient.obter_taxa_par (decimal_de_texto m) (chave m) t de para) dt.

Definition env (m : Mundo) : Conversor.Env :=
  Conversor.mkEnv (respond m) (escrita m) (decimal_de_texto m).

End Provedores.

(** ** src/core/cache.py: statistics and the decorator *)

Module CacheStats.



End CacheStats.

Module Cached.

Section Wrapper.
(** [key_of] is the md5 digest of "{func.__name__}:{args}:{kwargs}";
    [func] runs against a world [W] that has a clock. *)
Context {Args W : Type}.
Variable key_of : Args -> string.
Variable func : Args -> W -> Res PyVal * W.
Variable clock : W -> Z.

(** The [wrapper] that [cached(...)] puts around [func], over the
    decorator's own [CacheManager]. *)
Definition wrapper (c : Cache.CacheManager) (w : W) (args : Args)
  (io : Cache.WriteOutcome) : Res PyVal * Cache.CacheManager * W :=
  let key := key_of args in
  match Cache.get c (clock w) key with
  | (Raise e, c1) => (Raise e, c1, w)
  | (Ok VNone, c1) =>
      match func args w with
      | (Raise e, w1) => (Raise e, c1, w1)
      | (Ok result, w1) =>
          match Cache.set c1 (clock w1) key result io with
          | (Raise e, c2) => (Raise e, c2, w1)
          | (Ok _, c2) => (Ok result, c2, w1)
          end
      end
  | (Ok cached_value, c1) => (Ok cached_value, c1, w)
  end.

End Wrapper.

End Cached.

(** ** src/core/conversor.py: currency queries and comparison *)

Module Consultas.

Definition MOEDAS_POPULARES : list (string * string) :=
  [("USD", "Dólar Americano"); ("EUR", "Euro"); ("BRL", "Real Brasileiro");
   ("GBP", "Libra Esterlina"); ("JPY", "Iene Japonês"); ("CHF", "Franco Suíço");
   ("CAD", "Dólar Canadense"); ("AUD", "Dólar Australiano");
   ("CNY", "Yuan Chinês"); ("ARS", "Peso Argentino")].

Definition populares : PyVal := VDict (prod_map id VStr <$> MOEDAS_POPULARES).


(** The lines these methods log themselves. *)
Inductive Aviso :=
| ErroAoListarMoedas (e : APIErrorData)          (* "Erro ao listar moedas: {e}" *)
| ErroNaComparacao (moeda : string) (e : Exn).   (* "Erro na comparação de {moeda}: {e}" *)

Section Moedas.
(** [self.api.listar_moedas()] against the manager and the world [A]. *)
Context {A : Type}.
Variable api_listar_moedas : A -> Res PyVal * A.

(** [ConversorMoedas.listar_moedas(apenas_populares)]: result, new
    [_moedas_disponiveis], warnings, world. *)
Definition listar_moedas (apenas_populares : bool) (_moedas_disponiveis : PyVal)
  (a : A) : Res PyVal * PyVal * list Aviso * A :=
  if apenas_populares then (Ok populares, _moedas_disponiveis, [], a)
  else
    match _moedas_disponiveis with
    | VNone =>
        match api_listar_moedas a with
        | (Ok m, a') => (Ok m, m, [], a')
        | (Raise (APIError e), a') => (Ok populares, VNone, [ErroAoListarMoedas e], a')
        | (Raise e, a') => (Raise e, VNone, [], a')
        end
    | memo => (Ok memo, memo, [], a)
    end.



End Moedas.

(** The loop of [comparar_moedas]: the dict built so far, the warnings
    logged by the method itself, the engine. *)
Fixpoint comparar_loop (env : Conversor.Env) (st : Conversor.ConversorMoedas)
  (valor_base : Conversor.Valor) (moeda_referencia : string) (moedas : list string)
  (resultado : gmap string (option Decimal)) (avisos : list Aviso)
  : gmap string (option Decimal) * list Aviso * Conversor.ConversorMoedas :=
  match moedas with
  | [] => (resultado, avisos, st)
  | moeda :: rest =>
      match Conversor.converter env st valor_base moeda_referencia moeda false with
      | (Ok conv, st1) =>
          comparar_loop env st1 valor_base moeda_referencia rest
            (<[moeda := Some (Conversao.valor_convertido conv)]> resultado) avisos
      | (Raise e, st1) =>
          comparar_loop env st1 valor_base moeda_referencia rest
            (<[moeda := None]> resultado) (avisos ++ [ErroNaComparacao moeda e])
      end
  end.

(** [ConversorMoedas.comparar_moedas(moedas, valor_base, moeda_referencia)] *)
Definition comparar_moedas (env : Conversor.Env) (st : Conversor.ConversorMoedas)
  (moedas : list string) (valor_base : Conversor.Valor) (moeda_referencia : string)
  : gmap string (option Decimal) * list Aviso * Conversor.ConversorMoedas :=
  comparar_loop env st valor_base moeda_referencia moedas ∅ [].

End Consultas.

(** ** src/utils *)

Module Validators.






End Validators.

Module Models.


End Models.

Module Formatters.

(** [texto[:k]] *)
Definition slice_to {A} (texto : list A) (k : Z) : list A :=
  if (0 <=? k)%Z then take (Z.to_nat k) texto
  else take (Z.to_nat (Z.of_nat (length texto) + k)) texto.

(** [truncar_texto(texto, maximo, sufixo)] on sequences of characters. *)
Definition truncar_texto {A} (texto : list A) (maximo : Z) (sufixo : list A) : list A :=
  if (Z.of_nat (length texto) <=? maximo)%Z then texto
  else slice_to texto (maximo - Z.of_nat (length sufixo)) ++ sufixo.

End Formatters.

(** Statement-side definitions for the properties of these functions. *)

Module Spec2.

(** The memory tier and its timestamps hold the same keys. *)
Definition em_passo (c : Cache.CacheManager) : Prop :=
  dom (Cache._memory_cache c) = dom (Cache._timestamps c).

(** The four ways a request fails in the HTTP layer. *)
Definition falha_de_transporte (t : Http.Transport) : bool :=
  match t with
  | Http.Timeout | Http.ConnectionError | Http.HTTPError _ _
  | Http.RequestException _ => true
  | Http.Outra _ | Http.Json _ => false
  end.

Section Moedas.
Context {Client S : Type}.
Variable listar : Client -> S -> Res PyVal * S.

(** Whatever the world, each of the clients lists its currencies or
    fails with an [APIError]. *)
Definition so_APIError (clients : list Client) : Prop :=
  forall c s, c ∈ clients ->
    match (listar c s).1 with
    | Ok _ | Raise (APIError _) => True
    | Raise _ => False
    end.
End Moedas.

(** A world without network: every request times out after ten seconds. *)
Definition sem_rede : Provedores.Mundo :=
  Provedores.mkMundo (fun _ _ => (Http.Timeout, 10000000%Z)) "demo"
    (fun _ => Cache.WriteOk) (fun _ => Raise InvalidOperation).

(** A world whose first provider answers every request with a JSON list. *)
Definition resposta_em_lista : Provedores.Mundo :=
  Provedores.mkMundo (fun _ _ => (Http.Json (VList []), 250000%Z)) "demo"
    (fun _ => Cache.WriteOk) (fun _ => Raise InvalidOperation).

End Spec2.

(** * Properties *)

Import Conversor.

(** ** Shared lemmas *)


Lemma log_log_all st records l m :
  log (Spec.log_all st records) l m = Spec.log_all st (records ++ [(l, m)]).
Proof. unfold log, Spec.log_all; simpl. by rewrite app_assoc. Qed.




(** What a successful [calcular] returns. *)
Lemma calcular_ok valor_decimal taxa de para now c :
  calcular valor_decimal taxa de para now = Ok c ->
  exists produto resultado taxa_inversa,
    Dec.mul valor_decimal taxa = Ok produto /\
    Dec.quantize_2_half_up produto = Ok resultado /\
    (if Dec.is_zero taxa then Ok (DFin false 0 0) else Dec.div (Dec.of_int 1) taxa)
      = Ok taxa_inversa /\
    Conversao.field_gt0 valor_decimal = true /\
    Conversao.field_gt0 resultado = true /\
    c = Conversao.mk None valor_decimal resultado de para taxa taxa_inversa now None.
Proof.
  unfold calcular, mbind, Res_bind. intros H.
  destruct (Dec.mul valor_decimal taxa) as [produto|] eqn:Hm; [|done].
  destruct (Dec.quantize_2_half_up produto) as [resultado|] eqn:Hq; [|done].
  destruct (if Dec.is_zero taxa then _ else _) as [inv|] eqn:Hi; [|done].
  unfold Conversao.new in H.
  destruct (Conversao.field_gt0 valor_decimal) eqn:H1; [|done].
  destruct (Conversao.field_gt0 resultado) eqn:H2; [|done].
  simpl in H. injection H as <-.
  by exists produto, resultado, inv.
Qed.

(** ** C6: the two caller errors *)



(** ** C10: a batch with a non-positive amount *)




(** ** C9: a returned conversion is strictly positive *)


(** The steps behind a [converter] call, from the inside out. *)
Lemma converter_run env st valor de_moeda para_moeda salvar taxa st1 :
  valor_le0 valor = false ->
  normalizar de_moeda <> normalizar para_moeda ->
  obter_taxa env
    (log st Log.INFO
       (Log.Convertendo (valor_decimal valor) (normalizar de_moeda)
          (normalizar para_moeda)))
    (normalizar de_moeda) (normalizar para_moeda) = (Ok taxa, st1) ->
  converter env st valor de_moeda para_moeda salvar =
    match calcular (valor_decimal valor) taxa (normalizar de_moeda)
            (normalizar para_moeda) (now st1) with
    | Ok c0 => if salvar then (Ok (salvar_conversao st1 c0).1, (salvar_conversao st1 c0).2)
               else (Ok c0, st1)
    | Raise (APIError e) => (Raise (APIError e), log st1 Log.ERROR (Log.ErroDaAPI e))
    | Raise e => (Raise e, log st1 Log.ERROR (Log.ErroInesperado e))
    end.
Proof.
  intros Hpos Hne Ht. unfold converter. rewrite Hpos.
  rewrite bool_decide_eq_false_2 by done.
  unfold converter_try. rewrite Ht.
  destruct (calcular _ _ _ _ _) as [c0|e]; [|done].
  by destruct salvar.
Qed.





(** ** C7: reading the cache *)

Import Cache.

(** An unexpired in-memory entry is returned and nothing changes. *)
Lemma get_memory_valid c now key v ts :
  _memory_cache c !! key = Some v ->
  _timestamps c !! key = Some ts ->
  (now - ts < ttl_delta c)%Z ->
  Cache.get c now key = (Ok v, c).
Proof.
  intros Hm Ht Hlt. unfold Cache.get, _is_valid. rewrite Hm, Ht.
  by rewrite bool_decide_eq_true_2.
Qed.

(** An in-memory entry of age [ttl] or more is removed from both tiers. *)
Lemma get_memory_expired c now key v ts :
  _memory_cache c !! key = Some v ->
  _timestamps c !! key = Some ts ->
  (ttl_delta c <= now - ts)%Z ->
  Cache.get c now key = (Ok VNone, Cache.delete c key) /\
  _memory_cache (Cache.delete c key) !! key = None /\
  cache_dir (Cache.delete c key) !! key = None.
Proof.
  intros Hm Ht Hge. unfold Cache.get, _is_valid. rewrite Hm, Ht.
  rewrite bool_decide_eq_false_2 by lia.
  split; [done|]. simpl. by rewrite !lookup_delete_eq.
Qed.

(** An unexpired, well-formed file is promoted into memory and returned. *)
Lemma get_disk_promoted c now key v t :
  _memory_cache c !! key = None ->
  cache_dir c !! key = Some (JsonObject (Some (TsNaive t)) (Some v)) ->
  (now - t < ttl_delta c)%Z ->
  exists c',
    Cache.get c now key = (Ok v, c') /\
    _memory_cache c' !! key = Some v /\
    _timestamps c' !! key = Some t /\
    cache_dir c' = cache_dir c.
Proof.
  intros Hm Hd Hlt. unfold Cache.get. rewrite Hm, Hd. simpl.
  rewrite bool_decide_eq_true_2 by done.
  eexists. split; [done|]. simpl. by rewrite !lookup_insert_eq.
Qed.

(** Such a file is deleted and the key reads as absent. *)
Lemma get_disk_healed c now key f :
  _memory_cache c !! key = None ->
  cache_dir c !! key = Some f ->
  Spec.stale_or_undecodable c now f ->
  Cache.get c now key = (Ok VNone, unlink c key) /\
  cache_dir (unlink c key) !! key = None.
Proof.
  intros Hm Hd Hs. unfold Cache.get. rewrite Hm, Hd.
  split; [|simpl; by rewrite lookup_delete_eq].
  destruct f as [| |[[t|t| |]|] value]; simpl in *; try done.
  case_bool_decide as Hlt; [|done].
  destruct Hs as [?| ->]; [lia | done].
Qed.

Lemma get_raises_on_wrong_shape c now key f :
  _memory_cache c !! key = None ->
  cache_dir c !! key = Some f ->
  Spec.wrong_shape f = true ->
  Cache.get c now key = (Raise TypeError, c).
Proof.
  intros Hm Hd Hw. unfold Cache.get. rewrite Hm, Hd.
  by destruct f as [| |[[t|t| |]|] value].
Qed.

(** Away from those files [get] always returns. *)
Lemma get_returns c now key :
  (forall f, cache_dir c !! key = Some f -> Spec.wrong_shape f = false) ->
  exists v c', Cache.get c now key = (Ok v, c').
Proof.
  intros Hf. unfold Cache.get.
  destruct (_memory_cache c !! key) as [v|].
  { destruct (_is_valid c now key); by eexists _, _. }
  destruct (cache_dir c !! key) as [f|] eqn:Hd; [|by eexists _, _].
  specialize (Hf f eq_refl).
  destruct f as [| |[[t|t| |]|] value]; simpl in *; try done; try by eexists _, _.
  case_bool_decide; [destruct value|]; by eexists _, _.
Qed.

(** C7.  With nothing in memory and a cache file that holds the JSON text
    [[]], [get] raises [TypeError]: indexing the decoded list with
    ['timestamp'] is not among the exceptions the [except] clause
    catches, and the file stays in place. *)
Theorem C7_get_raises_on_json_list :
  Cache.get (Cache.new 3600 {[ "taxa:USD:BRL" := JsonNotObject ]}) 0 "taxa:USD:BRL"
  = (Raise TypeError, Cache.new 3600 {[ "taxa:USD:BRL" := JsonNotObject ]}).
Proof. reflexivity. Qed.

(** ** C5: writing the cache *)

(** C5, as the code has it.  [set] always updates the in-memory tier
    first.  If the file write completes, the file holds the new entry; if
    opening the file fails, the error propagates and the directory is
    unchanged; if the dump fails after the file was opened, the error
    propagates and the file is left cut short.  No other key is touched. *)
Theorem C5_set_outcomes c now key value io :
  let '(r, c') := Cache.set c now key value io in
  _memory_cache c' !! key = Some value /\
  _timestamps c' !! key = Some now /\
  (forall k, k <> key ->
     _memory_cache c' !! k = _memory_cache c !! k /\
     _timestamps c' !! k = _timestamps c !! k /\
     cache_dir c' !! k = cache_dir c !! k) /\
  match io with
  | WriteOk =>
      r = Ok tt /\
      cache_dir c' !! key = Some (JsonObject (Some (TsNaive now)) (Some value))
  | OpenFails => r = Raise OSError /\ cache_dir c' = cache_dir c
  | DumpFails => r = Raise OSError /\ cache_dir c' !! key = Some NotJson
  end.
Proof.
  destruct io; simpl; rewrite ?lookup_insert_eq;
    (split; [done|]); (split; [done|]);
    (split; [intros k Hk; by rewrite ?lookup_insert_ne|]); done.
Qed.

(** After an interrupted dump, the storage error is raised, memory holds
    the new value, and the entry that was valid on disk is gone: a fresh
    process found the old rate before and finds nothing after. *)
Lemma C5_failed_write_corrupts_entry :
  let old := VFloat (Flt.of_decimal (DFin false 50745 (-4))) in
  let new := VFloat (Flt.of_decimal (DFin false 51 (-1))) in
  let c := mkCache 3600 ∅ ∅ {[ "taxa:USD:BRL" := JsonObject (Some (TsNaive 0)) (Some old) ]} in
  (Cache.get (Cache.new 3600 (cache_dir c)) 1000 "taxa:USD:BRL").1 = Ok old /\
  exists c',
    Cache.set c 1000 "taxa:USD:BRL" new DumpFails = (Raise OSError, c') /\
    _memory_cache c' !! "taxa:USD:BRL" = Some new /\
    cache_dir c' !! "taxa:USD:BRL" = Some NotJson /\
    (Cache.get (Cache.new 3600 (cache_dir c')) 1000 "taxa:USD:BRL").1 = Ok VNone.
Proof.
  split; [vm_compute; reflexivity|].
  eexists. split; [reflexivity|]. by vm_compute.
Qed.

(** ** C4: the keyed provider's error envelope *)





(** ** C3: the fallback chain *)







Section FallbackProperties.
Context {Client S R : Type}.
Variable nome : Client -> string.
Variable method_name : string.
Variable call : Client -> S -> Res R * S.

(** A failing prefix only feeds the accumulators. *)
Lemma fallback_loop_falham pre s es s1 :
  Spec.falham nome call pre s es s1 ->
  forall rest errors log,
    Manager.fallback_loop nome method_name call (pre ++ rest) errors log s =
    Manager.fallback_loop nome method_name call rest
      (errors ++ (Spec.error_line <$> es))
      (log ++ concat (Spec.failure_log method_name <$> es)) s1.
Proof.
  induction 1 as [s|c cs s e s1 es s2 Hc _ IH]; intros rest errors log; simpl.
  - by rewrite !app_nil_r.
  - rewrite Hc, IH. by rewrite <- !app_assoc.
Qed.


End FallbackProperties.


(** ** C8: batches *)


Lemma upper_char_idemp a : Str.upper_char (Str.upper_char a) = Str.upper_char a.
Proof. by destruct a as [[] [] [] [] [] [] [] []]. Qed.

Lemma upper_idemp s : Str.upper (Str.upper s) = Str.upper s.
Proof. induction s as [|a s IH]; simpl; [done|]. by rewrite upper_char_idemp, IH. Qed.











(** The scenario of the specification: 100 USD to BRL, XXX and EUR, XXX
    being unknown to every provider, gives the BRL and EUR conversions
    and one warning for XXX. *)
Lemma converter_multiplo_BRL_XXX_EUR :
  exists m st',
    converter_multiplo Exemplo.env Exemplo.inicio (valor_of_int 100) "USD"
      ["BRL"; "XXX"; "EUR"] = (Ok m, st') /\
    (fun c => (Conversao.moeda_destino c, Conversao.valor_convertido c))
      <$> ConversaoMultipla.conversoes m =
      [("BRL", DFin false 50745 (-2)); ("EUR", DFin false 9215 (-2))] /\
    filter (fun r => r.1 = Log.WARNING) (logger st') =
      [(Log.WARNING,
        Log.ErroAoConverter "XXX"
          (APIError (Manager.todas_falharam
             ["Frankfurter: Moeda XXX não encontrada";
              "ExchangeRate-API: Erro de conexão com ExchangeRate-API"])))].
Proof. eexists _, _. split; [vm_compute; reflexivity|]. split; by vm_compute. Qed.

(** ** C2: what the cache holds *)

Lemma set_cache_same st : set_cache st (cache st) = st.
Proof. by destruct st. Qed.

(** Provider calls do not touch the cache. *)
Lemma fallback_keeps_cache env de para cls errs lg s r records s' :
  Manager.fallback_loop (fun c : string => c) "obter_taxa_par"
    (call_client env de para) cls errs lg s = (r, records, s') ->
  cache s' = cache s.
Proof.
  revert errs lg s.
  induction cls as [|cl cls IH]; intros errs lg s Hrun; simpl in Hrun.
  - by injection Hrun as _ _ <-.
  - destruct (outcome _) as [x|[]] eqn:Ho; try by injection Hrun as _ _ <-.
    by apply IH in Hrun.
Qed.

(** A miss followed by a successful fetch leaves [float(taxa)] in both
    tiers, stamped with the time of the write. *)
Lemma obter_taxa_miss env st de para taxa st1 :
  (Cache.get (cache st) (now st) (cache_key de para)).1 = Ok VNone ->
  obter_taxa env st de para = (Ok taxa, st1) ->
  _memory_cache (cache st1) !! cache_key de para = Some (VFloat (Flt.of_decimal taxa)) /\
  _timestamps (cache st1) !! cache_key de para = Some (now st1) /\
  cache_dir (cache st1) !! cache_key de para =
    Some (JsonObject (Some (TsNaive (now st1))) (Some (VFloat (Flt.of_decimal taxa)))) /\
  ttl (cache st1) = ttl (cache st).
Proof.
  unfold obter_taxa. intros Hmiss.
  assert (ttl (Cache.get (cache st) (now st) (cache_key de para)).2 = ttl (cache st)) as Httl.
  { unfold Cache.get.
    destruct (_memory_cache (cache st) !! _); [by destruct (_is_valid _ _ _)|].
    destruct (cache_dir (cache st) !! _) as [f|]; [|done].
    destruct f as [| |[[t|t| |]|] value]; simpl; try done.
    case_bool_decide; [by destruct value | done]. }
  destruct (Cache.get _ _ _) as [[v|e] c]; simpl in *; [|done].
  injection Hmiss as ->.
  unfold obter_taxa_par.
  destruct (Manager._executar_com_fallback _ _ _ _ _) as [[r records] st'] eqn:Hrun.
  assert (cache st' = c) as Hc by (by apply fallback_keeps_cache in Hrun).
  destruct r as [t|e]; [|done].
  unfold cache_write, Cache.set. simpl. rewrite Hc.
  destruct (disk_write env _); intros H; try done.
  injection H as <- <-. simpl. by rewrite !lookup_insert_eq.
Qed.

(** A hit in memory: the rate is read off the cached payload and no
    request goes out. *)
Lemma obter_taxa_memory_hit env st de para v ts taxa :
  _memory_cache (cache st) !! cache_key de para = Some v ->
  v <> VNone ->
  _timestamps (cache st) !! cache_key de para = Some ts ->
  (now st - ts < ttl_delta (cache st))%Z ->
  Decimal_of_str env v = Ok taxa ->
  obter_taxa env st de para = (Ok taxa, log st Log.DEBUG Log.TaxaDoCache).
Proof.
  intros Hm Hv Ht Hlt Hd. unfold obter_taxa.
  rewrite (get_memory_valid _ _ _ _ _ Hm Ht Hlt), Hd, set_cache_same.
  by destruct v.
Qed.

(** C2, as the code has it.  After a miss and a successful fetch of
    [taxa], both tiers of the cache hold the binary64 float
    [float(taxa)], not the decimal.  Any later lookup of the pair that
    finds this entry in memory within the time to live sends no request
    and uses [Decimal(str(float(taxa)))]; this is [taxa] itself whenever
    [taxa] survives the trip through [float] and [str]. *)
Theorem C2_cache_holds_float env st de para taxa st1 :
  (Cache.get (cache st) (now st) (cache_key de para)).1 = Ok VNone ->
  obter_taxa env st de para = (Ok taxa, st1) ->
  _memory_cache (cache st1) !! cache_key de para = Some (VFloat (Flt.of_decimal taxa)) /\
  cache_dir (cache st1) !! cache_key de para =
    Some (JsonObject (Some (TsNaive (now st1))) (Some (VFloat (Flt.of_decimal taxa)))) /\
  (forall st2,
     _memory_cache (cache st2) !! cache_key de para =
       _memory_cache (cache st1) !! cache_key de para ->
     _timestamps (cache st2) !! cache_key de para =
       _timestamps (cache st1) !! cache_key de para ->
     (now st2 - now st1 < ttl_delta (cache st2))%Z ->
     obter_taxa env st2 de para =
       (Ok (Flt.to_decimal (Flt.of_decimal taxa)), log st2 Log.DEBUG Log.TaxaDoCache) /\
     requests (log st2 Log.DEBUG Log.TaxaDoCache) = requests st2 /\
     (Flt.to_decimal (Flt.of_decimal taxa) = taxa ->
      obter_taxa env st2 de para = (Ok taxa, log st2 Log.DEBUG Log.TaxaDoCache))).
Proof.
  intros Hmiss Hrun.
  destruct (obter_taxa_miss _ _ _ _ _ _ Hmiss Hrun) as (Hm & Ht & Hd & _).
  split; [done|]. split; [done|].
  intros st2 Hm2 Ht2 Hlt. rewrite Hm in Hm2. rewrite Ht in Ht2.
  assert (obter_taxa env st2 de para =
            (Ok (Flt.to_decimal (Flt.of_decimal taxa)), log st2 Log.DEBUG Log.TaxaDoCache))
    as Hhit by (by eapply obter_taxa_memory_hit).
  split; [done|]. split; [done|]. by intros <-.
Qed.

Lemma C2_cache_holds_float_witness :
  let st1 := Exemplo.apos_usd_brl in
  let f := FFin false 5713379077272895 (-50) in
  obter_taxa Exemplo.env Exemplo.inicio "USD" "BRL" = (Ok (DFin false 50745 (-4)), st1) /\
  _memory_cache (cache st1) !! "taxa:USD:BRL" = Some (VFloat f) /\
  cache_dir (cache st1) !! "taxa:USD:BRL" =
    Some (JsonObject (Some (TsNaive 250000)) (Some (VFloat f))) /\
  obter_taxa Exemplo.env (sleep st1 3599999999) "USD" "BRL" =
    (Ok (DFin false 50745 (-4)), log (sleep st1 3599999999) Log.DEBUG Log.TaxaDoCache) /\
  requests (log (sleep st1 3599999999) Log.DEBUG Log.TaxaDoCache) =
    [("Frankfurter", "USD", "BRL")].
Proof.
  intros st1 f.
  assert (obter_taxa Exemplo.env Exemplo.inicio "USD" "BRL"
          = (Ok (DFin false 50745 (-4)), st1)) as Hrun by (vm_compute; reflexivity).
  destruct (C2_cache_holds_float Exemplo.env Exemplo.inicio "USD" "BRL"
              (DFin false 50745 (-4)) st1 ltac:(vm_compute; reflexivity) Hrun)
    as (Hm & Hd & Hlater).
  split; [exact Hrun|].
  split; [exact (eq_trans Hm ltac:(vm_compute; reflexivity))|].
  split; [exact (eq_trans Hd ltac:(vm_compute; reflexivity))|].
  destruct (Hlater (sleep st1 3599999999) eq_refl eq_refl ltac:(by vm_compute))
    as (_ & _ & Hsame).
  split; [apply Hsame; vm_compute; reflexivity | vm_compute; reflexivity].
Defined.

(** A rate that does not survive: an integer rate above 2^53 read from a
    provider comes back from the cache as a different number, so the
    second conversion of the same amount differs from the first; and what
    the cache holds is a float. *)
Lemma C2_rate_changes_through_cache :
  let taxa := DFin false 9007199254740993 0 in
  let env := Exemplo.env_taxa taxa in
  exists c1 st1 c2 st2,
    converter env Exemplo.inicio (valor_of_int 1) "USD" "BRL" false = (Ok c1, st1) /\
    Conversao.taxa c1 = taxa /\
    Conversao.valor_convertido c1 = DFin false 900719925474099300 (-2) /\
    _memory_cache (cache st1) !! "taxa:USD:BRL" =
      Some (VFloat (FFin false 4503599627370496 1)) /\
    converter env (sleep st1 1000000) (valor_of_int 1) "USD" "BRL" false = (Ok c2, st2) /\
    requests st2 = requests st1 /\
    Conversao.taxa c2 = DFin false 90071992547409920 (-1) /\
    Conversao.valor_convertido c2 = DFin false 900719925474099200 (-2) /\
    ~ (Dec.value (Conversao.taxa c2) == Dec.value taxa)%Q.
Proof.
  eexists _, _, _, _.
  split; [vm_compute; reflexivity|]. split; [reflexivity|]. split; [reflexivity|].
  split; [by vm_compute|].
  split; [vm_compute; reflexivity|]. split; [reflexivity|]. split; [reflexivity|].
  split; [reflexivity|]. by vm_compute.
Qed.

(** A conversion served from the cache sends no request: the second of
    two conversions of a pair within the time to live costs no provider
    call. *)
Lemma converter_served_from_cache env st valor de_moeda para_moeda salvar v ts taxa :
  valor_le0 valor = false ->
  normalizar de_moeda <> normalizar para_moeda ->
  _memory_cache (cache st) !! cache_key (normalizar de_moeda) (normalizar para_moeda)
    = Some v ->
  v <> VNone ->
  _timestamps (cache st) !! cache_key (normalizar de_moeda) (normalizar para_moeda)
    = Some ts ->
  (now st - ts < ttl_delta (cache st))%Z ->
  Decimal_of_str env v = Ok taxa ->
  requests (converter env st valor de_moeda para_moeda salvar).2 = requests st /\
  (forall c, (converter env st valor de_moeda para_moeda salvar).1 = Ok c ->
             Conversao.taxa c = taxa).
Proof.
  intros Hpos Hne Hm Hv Ht Hlt Hd.
  rewrite (converter_run env st valor de_moeda para_moeda salvar taxa _ Hpos Hne
             (obter_taxa_memory_hit env
                (log st Log.INFO
                   (Log.Convertendo (valor_decimal valor) (normalizar de_moeda)
                      (normalizar para_moeda)))
                _ _ v ts taxa Hm Hv Ht Hlt Hd)).
  destruct (calcular _ _ _ _ _) as [c0|e] eqn:Hc.
  - apply calcular_ok in Hc as (p & r & i & _ & _ & _ & _ & _ & ->).
    destruct salvar; simpl; (split; [done|]); by intros c [= <-].
  - destruct e; simpl; (split; [done|]); by intros c [=].
Qed.

(** ** C1: the arithmetic of [converter] *)

(** *** Digits *)

Lemma ndigits_fuel_spec fuel :
  forall n, (0 < n)%N -> (n < 2 ^ N.of_nat fuel)%N ->
    (1 <= Dec.ndigits_fuel fuel n)%N /\
    (10 ^ (Dec.ndigits_fuel fuel n - 1) <= n)%N /\
    (n < 10 ^ Dec.ndigits_fuel fuel n)%N.
Proof.
  induction fuel as [|fuel IH]; intros n Hpos Hlt.
  - change (2 ^ N.of_nat 0)%N with 1%N in Hlt. lia.
  - cbn [Dec.ndigits_fuel]. destruct (N.ltb_spec n 10) as [Hs|Hb].
    + change (10 ^ (1 - 1))%N with 1%N. change (10 ^ 1)%N with 10%N. lia.
    + assert (0 < n / 10)%N as Hq by (apply N.div_str_pos; lia).
      assert (n / 10 < 2 ^ N.of_nat fuel)%N as Hf.
      { rewrite Nat2N.inj_succ, N.pow_succ_r' in Hlt.
        apply N.Div0.div_lt_upper_bound. lia. }
      destruct (IH _ Hq Hf) as (H1 & Hlo & Hhi).
      set (d := Dec.ndigits_fuel fuel (n / 10)) in *.
      pose proof (N.Div0.div_mod n 10) as Hdm.
      pose proof (N.mod_lt n 10 ltac:(lia)) as Hm.
      replace (1 + d - 1)%N with (N.succ (d - 1)) by lia.
      replace (1 + d)%N with (N.succ d) by lia.
      rewrite !N.pow_succ_r'. clearbody d. clear IH Hf Hq.
      generalize dependent (n / 10)%N. generalize dependent (n mod 10)%N.
      intros. lia.
Qed.

Lemma ndigits_spec n :
  (0 < n)%N ->
  (1 <= Dec.ndigits n)%N /\
  (10 ^ (Dec.ndigits n - 1) <= n)%N /\ (n < 10 ^ Dec.ndigits n)%N.
Proof.
  intros Hpos. apply ndigits_fuel_spec; [done|].
  rewrite N2Nat.id. apply N.size_gt.
Qed.

Lemma ndigits_ge_1 n : (1 <= Dec.ndigits n)%N.
Proof.
  destruct (N.eq_dec n 0%N) as [->|Hn]; [done|].
  apply ndigits_spec. lia.
Qed.

(** Fewer than [10^k] means at most [k] digits. *)
Lemma ndigits_le n k : (1 <= k)%N -> (n < 10 ^ k)%N -> (Dec.ndigits n <= k)%N.
Proof.
  intros Hk Hlt. destruct (N.eq_dec n 0%N) as [->|Hn]; [done|].
  destruct (ndigits_spec n ltac:(lia)) as (H1 & Hlo & _).
  destruct (N.le_gt_cases (Dec.ndigits n) k) as [|Hgt]; [done|].
  assert (10 ^ k <= 10 ^ (Dec.ndigits n - 1))%N by (apply N.pow_le_mono_r; lia).
  lia.
Qed.

(** At least [10^k] means more than [k] digits. *)
Lemma ndigits_gt n k : (10 ^ k <= n)%N -> (k < Dec.ndigits n)%N.
Proof.
  intros Hge.
  assert (0 < 10 ^ k)%N by (apply N.neq_0_lt_0, N.pow_nonzero; lia).
  destruct (ndigits_spec n ltac:(lia)) as (_ & _ & Hhi).
  destruct (N.le_gt_cases (Dec.ndigits n) k) as [Hle|]; [|done].
  assert (10 ^ Dec.ndigits n <= 10 ^ k)%N by (apply N.pow_le_mono_r; lia).
  lia.
Qed.

(** A coefficient that fits the precision is left alone. *)
Lemma fix_fits s c e : (c < 10 ^ 28)%N -> Dec.fix_ (DFin s c e) = DFin s c e.
Proof.
  intros Hc. unfold Dec.fix_.
  pose proof (ndigits_le c 28 ltac:(lia) Hc) as Hd.
  destruct (N.leb_spec (Dec.ndigits c) Dec.prec) as [|Hgt]; [done|].
  unfold Dec.prec in Hgt. lia.
Qed.

(** A product whose coefficient fits is exact. *)
Lemma mul_exact s c e t d f :
  (c * d < 10 ^ 28)%N ->
  Dec.mul (DFin s c e) (DFin t d f) = Ok (DFin (xorb s t) (c * d) (e + f)).
Proof. intros H. unfold Dec.mul. by rewrite fix_fits. Qed.

(** *** Quantizing *)

(** Dropping digits half-up is the integer nearest to [c / 10^k], ties
    up. *)
Lemma drop_half_up_spec c k :
  Dec.drop_half_up c k = ((2 * c + 10 ^ k) / (2 * 10 ^ k))%N.
Proof.
  unfold Dec.drop_half_up.
  assert (0 < 10 ^ k)%N as HP by (apply N.neq_0_lt_0, N.pow_nonzero; lia).
  set (P := (10 ^ k)%N) in *.
  pose proof (N.Div0.div_mod c P) as Hdm.
  pose proof (N.mod_lt c P ltac:(lia)) as Hm.
  set (q := (c / P)%N) in *. set (r := (c mod P)%N) in *.
  clearbody q r P.
  destruct (N.leb_spec P (2 * r)) as [Hup|Hdown].
  - apply (N.div_unique _ _ _ (2 * r - P)); nia.
  - apply (N.div_unique _ _ _ (2 * r + P)); nia.
Qed.


Lemma pow10_pos k : (0 < 10 ^ k)%N.
Proof. apply N.neq_0_lt_0, N.pow_nonzero. lia. Qed.

(** A value of [10^26] or more does not fit the precision at exponent
    -2. *)
Lemma quantized_coef_big c e :
  (0 < c)%N ->
  (28 < Z.of_N (Dec.ndigits c) + e + 2)%Z ->
  (10 ^ 28 <= Spec.quantized_coef c e)%N.
Proof.
  intros Hc Hbig. unfold Spec.quantized_coef.
  destruct (ndigits_spec c Hc) as (H1 & Hlo & _).
  set (d := Dec.ndigits c) in *. clearbody d.
  destruct (Z.leb_spec (-2) e) as [He|He].
  - set (j := Z.to_N (e + 2)).
    assert (Z.of_N j = e + 2)%Z as Hj by (unfold j; lia). clearbody j.
    assert (10 ^ 28 <= 10 ^ (d - 1 + j))%N as Hp by (apply N.pow_le_mono_r; lia).
    rewrite N.pow_add_r in Hp.
    pose proof (pow10_pos j).
    generalize dependent (10 ^ j)%N. generalize dependent (10 ^ (d - 1))%N.
    intros. nia.
  - rewrite drop_half_up_spec.
    set (k := Z.to_N (-2 - e)).
    assert (Z.of_N k = -2 - e)%Z as Hk by (unfold k; lia). clearbody k.
    assert (10 ^ (28 + k) <= 10 ^ (d - 1))%N as Hp by (apply N.pow_le_mono_r; lia).
    rewrite N.pow_add_r in Hp.
    pose proof (pow10_pos k).
    apply N.div_le_lower_bound; [lia|].
    generalize dependent (10 ^ k)%N. generalize dependent (10 ^ (d - 1))%N.
    intros. nia.
Qed.

(** [quantize] returns the rounded coefficient whenever it has at most
    28 digits. *)
Lemma quantize_ok s c e :
  (0 < c)%N ->
  (Spec.quantized_coef c e < 10 ^ 28)%N ->
  Dec.quantize_2_half_up (DFin s c e) = Ok (DFin s (Spec.quantized_coef c e) (-2)).
Proof.
  intros Hc Hq. unfold Dec.quantize_2_half_up.
  destruct (N.eqb_spec c 0) as [->|_]; [lia|].
  destruct (Z.ltb_spec (Z.of_N Dec.prec) (Z.of_N (Dec.ndigits c) + e + 2)) as [Hbig|_].
  { pose proof (quantized_coef_big c e Hc Hbig). lia. }
  fold (Spec.quantized_coef c e).
  pose proof (ndigits_le _ 28 ltac:(lia) Hq) as Hd.
  destruct (N.ltb_spec Dec.prec (Dec.ndigits (Spec.quantized_coef c e))) as [Hgt|_];
    [|done].
  unfold Dec.prec in Hgt. lia.
Qed.

(** *** Values *)

Lemma Qfloor_unique y z :
  (inject_Z z <= y)%Q -> (y < inject_Z (z + 1))%Q -> Qfloor y = z.
Proof.
  intros Hlo Hhi.
  pose proof (Qfloor_le y) as Hfl. pose proof (Qlt_floor y) as Hfu.
  assert (z < Qfloor y + 1)%Z
    by (rewrite Zlt_Qlt; eapply Qle_lt_trans; [exact Hlo | exact Hfu]).
  assert (Qfloor y < z + 1)%Z
    by (rewrite Zlt_Qlt; eapply Qle_lt_trans; [exact Hfl | exact Hhi]).
  lia.
Qed.

Lemma Qpower10_nonneg (k : Z) : (0 <= k)%Z -> (10 ^ k == inject_Z (10 ^ k))%Q.
Proof. intros Hk. symmetry. by apply (Zpower_Qpower 10 k). Qed.

Lemma Qpower10_neg (k : Z) : (0 <= k)%Z -> (10 ^ (- k) == / inject_Z (10 ^ k))%Q.
Proof. intros Hk. rewrite Qpower_opp. by rewrite Qpower10_nonneg. Qed.

Lemma Qpower10_plus (a b : Z) : (10 ^ (a + b) == 10 ^ a * 10 ^ b)%Q.
Proof. by apply Qpower_plus. Qed.

Lemma scaled_value c e :
  (Dec.value (DFin false c e) * 100 == inject_Z (Z.of_N c) * 10 ^ (e + 2))%Q.
Proof.
  simpl. rewrite Qpower10_plus. change (10 ^ 2)%Q with 100%Q. ring.
Qed.

Lemma quantized_floor c e :
  Qfloor (Dec.value (DFin false c e) * 100 + (1 # 2)) = Z.of_N (Spec.quantized_coef c e).
Proof.
  rewrite scaled_value. unfold Spec.quantized_coef.
  destruct (Z.leb_spec (-2) e) as [He|He].
  - rewrite Qpower10_nonneg by lia.
    rewrite N2Z.inj_mul, N2Z.inj_pow, Z2N.id by lia. change (Z.of_N 10) with 10%Z.
    rewrite <- inject_Z_mult.
    apply Qfloor_unique.
    + lra.
    + rewrite inject_Z_plus. change (inject_Z 1) with 1%Q. lra.
  - rewrite drop_half_up_spec.
    set (k := (-2 - e)%Z). assert (0 < k)%Z as Hk by (unfold k; lia).
    replace (e + 2)%Z with (- k)%Z by (unfold k; lia).
    rewrite Qpower10_neg by lia.
    rewrite N2Z.inj_div, N2Z.inj_add, !N2Z.inj_mul, N2Z.inj_pow, Z2N.id by lia.
    change (Z.of_N 10) with 10%Z. change (Z.of_N 2) with 2%Z.
    assert (0 < 10 ^ k)%Z as HP by (apply Z.pow_pos_nonneg; lia).
    set (P := (10 ^ k)%Z) in *. set (C := Z.of_N c).
    assert (0 <= C)%Z by (unfold C; lia). clearbody P C.
    pose proof (Z.mul_div_le (2 * C + P) (2 * P) ltac:(lia)) as Hlo.
    pose proof (Z.mul_succ_div_gt (2 * C + P) (2 * P) ltac:(lia)) as Hhi.
    set (q := ((2 * C + P) / (2 * P))%Z) in *. clearbody q.
    assert (0 < inject_Z P)%Q as HPq by (change 0%Q with (inject_Z 0); rewrite <- Zlt_Qlt; done).
    assert (~ inject_Z P == 0)%Q as HPn by (intros E; rewrite E in HPq; by apply Qlt_irrefl in HPq).
    rewrite Zle_Qle in Hlo. rewrite Zlt_Qlt in Hhi.
    unfold Z.succ in Hhi.
    repeat (rewrite inject_Z_mult in Hlo || rewrite inject_Z_plus in Hlo).
    repeat (rewrite inject_Z_mult in Hhi || rewrite inject_Z_plus in Hhi).
    change (inject_Z 2) with 2%Q in *. change (inject_Z 1) with 1%Q in *.
    apply Qfloor_unique.
    + apply (Qmult_le_r _ _ (inject_Z P) HPq).
      setoid_replace ((inject_Z C * / inject_Z P + (1 # 2)) * inject_Z P)%Q
        with (inject_Z C + (1 # 2) * inject_Z P)%Q using relation Qeq by (field; exact HPn).
      set (m := (inject_Z q * inject_Z P)%Q).
      setoid_replace (2 * inject_Z P * inject_Z q)%Q with (2 * m)%Q using relation Qeq in Hlo by (unfold m; ring).
      clearbody m. lra.
    + rewrite inject_Z_plus. change (inject_Z 1) with 1%Q.
      apply (Qmult_lt_r _ _ (inject_Z P) HPq).
      setoid_replace ((inject_Z C * / inject_Z P + (1 # 2)) * inject_Z P)%Q
        with (inject_Z C + (1 # 2) * inject_Z P)%Q using relation Qeq by (field; exact HPn).
      set (m := (inject_Z q * inject_Z P)%Q).
      setoid_replace (2 * inject_Z P * (inject_Z q + 1))%Q with (2 * m + 2 * inject_Z P)%Q using relation Qeq in Hhi
        by (unfold m; ring).
      setoid_replace ((inject_Z q + 1) * inject_Z P)%Q with (m + inject_Z P)%Q using relation Qeq by (unfold m; ring).
      clearbody m. lra.
Qed.

Lemma value_nonneg c e : (0 <= Dec.value (DFin false c e))%Q.
Proof.
  simpl. apply Qmult_le_0_compat.
  - change 0%Q with (inject_Z 0). rewrite <- Zle_Qle. lia.
  - by apply Qpower_0_le.
Qed.

(** What [quantize] computes is the half-up rounding of the value. *)
Lemma quantized_value c e :
  (Dec.value (DFin false (Spec.quantized_coef c e) (-2))
   == Spec.round_half_up_2 (Dec.value (DFin false c e)))%Q.
Proof.
  unfold Spec.round_half_up_2.
  pose proof (value_nonneg c e) as Hx. apply Qle_bool_iff in Hx. rewrite Hx.
  rewrite quantized_floor. reflexivity.
Qed.

Lemma value_mul c e d f :
  (Dec.value (DFin false (c * d) (e + f))
   == Dec.value (DFin false c e) * Dec.value (DFin false d f))%Q.
Proof.
  simpl. rewrite N2Z.inj_mul, inject_Z_mult, Qpower10_plus. ring.
Qed.

(** Only a positive number rounds to a positive number. *)
Lemma round_half_up_2_pos x : (0 < Spec.round_half_up_2 x)%Q -> (0 < x)%Q.
Proof.
  unfold Spec.round_half_up_2. destruct (Qle_bool 0 x) eqn:E.
  - apply Qle_bool_iff in E. intros H.
    destruct (Qlt_le_dec 0 x) as [|Hle]; [done|].
    assert (Qfloor (x * 100 + (1 # 2)) = 0%Z) as Hf.
    { apply Qfloor_unique; change (inject_Z (0 + 1)) with 1%Q;
        change (inject_Z 0) with 0%Q; lra. }
    rewrite Hf in H. by vm_compute in H.
  - intros H.
    assert (x < 0)%Q as Hneg.
    { destruct (Qlt_le_dec x 0) as [|Hle]; [done|].
      apply Qle_bool_iff in Hle. congruence. }
    assert (0 <= Qfloor (- x * 100 + (1 # 2)))%Z as Hf.
    { change 0%Z with (Qfloor 0). apply Qfloor_resp_le. lra. }
    rewrite Zle_Qle in Hf. change (inject_Z 0) with 0%Q in Hf.
    set (n := inject_Z (Qfloor (- x * 100 + (1 # 2)))) in *. clearbody n.
    assert (0 <= n / 100)%Q by (apply Qle_shift_div_l; lra).
    lra.
Qed.

Lemma round_half_up_2_comp x y :
  (x == y)%Q -> (Spec.round_half_up_2 x == Spec.round_half_up_2 y)%Q.
Proof.
  intros E. unfold Spec.round_half_up_2.
  assert (Qle_bool 0 x = Qle_bool 0 y) as ->.
  { apply eq_true_iff_eq. rewrite !Qle_bool_iff. by rewrite E. }
  assert (Qfloor (x * 100 + (1 # 2)) = Qfloor (y * 100 + (1 # 2))) as ->
    by (by rewrite E).
  assert (Qfloor (- x * 100 + (1 # 2)) = Qfloor (- y * 100 + (1 # 2))) as ->
    by (by rewrite E).
  reflexivity.
Qed.

(** *** The inverse rate *)

(** Dropping digits half-even moves the coefficient by at most half a unit. *)
Lemma drop_half_even_error c k :
  let P := (10 ^ k)%N in
  let c' := Dec.drop_half_even c k in
  (2 * c' * P <= 2 * c + P)%N /\ (2 * c <= 2 * c' * P + P)%N /\ (c' <= c / P + 1)%N.
Proof.
  intros P c'. unfold c', Dec.drop_half_even. fold P.
  assert (0 < P)%N as HP by apply pow10_pos.
  pose proof (N.Div0.div_mod c P) as Hdm.
  pose proof (N.mod_lt c P ltac:(lia)) as Hm.
  generalize dependent (c / P)%N. generalize dependent (c mod P)%N. clearbody P.
  intros r Hr q Hdm.
  destruct (orb _ _) eqn:E.
  - apply orb_true_iff in E as [E|E].
    + apply N.ltb_lt in E. nia.
    + apply andb_true_iff in E as [E _]. apply N.eqb_eq in E. nia.
  - apply orb_false_iff in E as [E _]. apply N.ltb_ge in E. nia.
Qed.

Lemma value_scale c e k :
  (Dec.value (DFin false (c * 10 ^ k) e) == Dec.value (DFin false c (e + Z.of_N k)))%Q.
Proof.
  simpl. rewrite N2Z.inj_mul, N2Z.inj_pow, inject_Z_mult, Qpower10_plus.
  rewrite (Qpower10_nonneg (Z.of_N k)) by lia. change (Z.of_N 10) with 10%Z. ring.
Qed.

(** [_fix] keeps a positive value within 5e-28 of itself, relatively. *)
Lemma fix_rel_error c e :
  (0 < c)%N ->
  exists c' e',
    Dec.fix_ (DFin false c e) = DFin false c' e' /\
    (Qabs (Dec.value (DFin false c' e') - Dec.value (DFin false c e))
     <= (5 # 10 ^ 28) * Dec.value (DFin false c e))%Q.
Proof.
  intros Hc. unfold Dec.fix_.
  destruct (N.leb_spec (Dec.ndigits c) Dec.prec) as [Hle|Hgt].
  { exists c, e. split; [done|].
    pose proof (value_nonneg c e).
    set (v := Dec.value (DFin false c e)) in *. clearbody v.
    change (5 # 10 ^ 28)%Q with (5 # 10000000000000000000000000000)%Q.
    apply Qabs_Qle_condition. split; lra. }
  unfold Dec.prec in *.
  destruct (ndigits_spec c Hc) as (_ & Hlo & Hhi).
  set (n := Dec.ndigits c) in *. clearbody n.
  assert (exists k, n = 28 + k /\ 1 <= k)%N as (k & -> & Hk)
    by (exists (n - 28)%N; lia).
  replace (28 + k - 28)%N with k by lia.
  replace (28 + k - 1)%N with (27 + k)%N in Hlo by lia.
  rewrite N.pow_add_r in Hlo, Hhi.
  destruct (drop_half_even_error c k) as (Hup & Hdn & Hq).
  set (c' := Dec.drop_half_even c k) in *. clearbody c'.
  pose proof (pow10_pos k) as HP. set (P := (10 ^ k)%N) in *.
  assert (c / P < 10 ^ 28)%N as Hqlt by (apply N.Div0.div_lt_upper_bound; lia).
  assert (Qabs (Dec.value (DFin false (c' * P) e) - Dec.value (DFin false c e))
          <= (5 # 10 ^ 28) * Dec.value (DFin false c e))%Q as Herr.
  { apply Qabs_Qle_condition. simpl.
    set (t := (10 ^ e)%Q). assert (0 < t)%Q as Ht by (by apply Qpower_0_lt).
    assert (Z.of_N (10 ^ 27) * Z.of_N P <= Z.of_N c)%Z as H1 by lia.
    assert (2 * Z.of_N (c' * P) <= 2 * Z.of_N c + Z.of_N P)%Z as H2 by lia.
    assert (2 * Z.of_N c <= 2 * Z.of_N (c' * P) + Z.of_N P)%Z as H3 by lia.
    rewrite Zle_Qle in H1, H2, H3.
    repeat (rewrite inject_Z_mult in H1 || rewrite inject_Z_plus in H1).
    repeat (rewrite inject_Z_mult in H2 || rewrite inject_Z_plus in H2).
    repeat (rewrite inject_Z_mult in H3 || rewrite inject_Z_plus in H3).
    change (inject_Z 2) with 2%Q in *.
    change (inject_Z (Z.of_N (10 ^ 27))) with (1000000000000000000000000000 # 1)%Q in H1.
    set (a := inject_Z (Z.of_N (c' * P))) in *.
    set (b := inject_Z (Z.of_N c)) in *.
    set (p := inject_Z (Z.of_N P)) in *. clearbody a b p t.
    change (5 # 10 ^ 28)%Q with (5 # 10000000000000000000000000000)%Q.
    split.
    - assert (0 <= (a - b + (5 # 10000000000000000000000000000) * b) * t)%Q
        by (apply Qmult_le_0_compat; lra).
      lra.
    - assert (0 <= ((5 # 10000000000000000000000000000) * b - (a - b)) * t)%Q
        by (apply Qmult_le_0_compat; lra).
      lra. }
  destruct (N.ltb_spec 28 (Dec.ndigits c')) as [Hbig|Hsmall].
  - assert (c' = 10 ^ 28)%N as ->.
    { pose proof (ndigits_le c' 28 ltac:(lia)). lia. }
    eexists _, _. split; [reflexivity|].
    unfold P in Herr. rewrite value_scale in Herr.
    change (10 ^ 28 / 10)%N with (10 ^ 27)%N.
    change (10 ^ 28)%N with (10 ^ 27 * 10 ^ 1)%N in Herr.
    rewrite value_scale in Herr.
    by replace (e + Z.of_N k + Z.of_N 1)%Z with (e + Z.of_N k + 1)%Z in Herr by lia.
  - eexists _, _. split; [reflexivity|].
    unfold P in Herr. by rewrite value_scale in Herr.
Qed.

(** Stripping trailing zeros keeps the value. *)
Lemma strip_zeros_value fuel : forall c e ideal,
  (Dec.value (DFin false (Dec.strip_zeros fuel c e ideal).1 (Dec.strip_zeros fuel c e ideal).2)
   == Dec.value (DFin false c e))%Q.
Proof.
  induction fuel as [|fuel IH]; intros c e ideal; simpl; [reflexivity|].
  destruct (andb _ _) eqn:E; [|reflexivity].
  apply andb_true_iff in E as [_ E%N.eqb_eq].
  etransitivity; [apply IH|].
  pose proof (N.Div0.div_mod c 10) as Hdm. rewrite E, N.add_0_r in Hdm.
  rewrite Hdm at 2. rewrite N.mul_comm.
  exact (Qeq_sym _ _ (value_scale (c / 10) e 1)).
Qed.

Lemma strip_zeros_pos fuel : forall c e ideal,
  (0 < c)%N -> (0 < (Dec.strip_zeros fuel c e ideal).1)%N.
Proof.
  induction fuel as [|fuel IH]; intros c e ideal Hc; simpl; [done|].
  destruct (andb _ _) eqn:E; [|done].
  apply andb_true_iff in E as [_ E%N.eqb_eq].
  apply IH. pose proof (N.Div0.div_mod c 10) as Hdm.
  generalize dependent (c / 10)%N. intros. lia.
Qed.

(** From a coefficient within [d] of the exact quotient to the inverse
    within 1e-27. *)
Lemma inverse_bound c1 d f S exp v1 v2 :
  (0 < d)%N -> (0 < S)%N ->
  (inject_Z (Z.of_N S) * 10 ^ (exp + f) == 1)%Q ->
  (Z.abs (Z.of_N c1 * Z.of_N d - Z.of_N S) * 10 ^ 28 <= Z.of_N S)%Z ->
  (v1 == Dec.value (DFin false c1 exp))%Q ->
  (Qabs (v2 - v1) <= (5 # 10 ^ 28) * v1)%Q ->
  (Qabs (v2 * Dec.value (DFin false d f) - 1) <= 1 # 10 ^ 27)%Q.
Proof.
  intros Hd HS Hpow Hclose Hv1 Herr.
  change (5 # 10 ^ 28)%Q with (5 # 10000000000000000000000000000)%Q in Herr.
  change (1 # 10 ^ 27)%Q with (1 # 1000000000000000000000000000)%Q.
  apply Qabs_Qle_condition in Herr as [He1 He2].
  set (R := Dec.value (DFin false d f)).
  assert (0 < R)%Q as HR.
  { unfold R. simpl. apply Qmult_lt_0_compat; [|by apply Qpower_0_lt].
    change 0%Q with (inject_Z 0). rewrite <- Zlt_Qlt. lia. }
  set (s := inject_Z (Z.of_N S)).
  assert (0 < s)%Q as Hs
    by (unfold s; change 0%Q with (inject_Z 0); rewrite <- Zlt_Qlt; lia).
  set (u := (10 ^ (exp + f))%Q) in *.
  assert (0 < u)%Q as Hu by (by apply Qpower_0_lt).
  set (y := (v1 * R)%Q).
  assert (y == inject_Z (Z.of_N c1 * Z.of_N d) * u)%Q as Hy.
  { unfold y, R, u. rewrite Hv1. simpl. rewrite inject_Z_mult, Qpower10_plus. ring. }
  assert (- (1 # 10000000000000000000000000000) <= y - 1
          /\ y - 1 <= 1 # 10000000000000000000000000000)%Q as [Hy1 Hy2].
  { set (n := (Z.of_N c1 * Z.of_N d)%Z) in *.
    assert ((n - Z.of_N S) * 10 ^ 28 <= Z.of_N S
            /\ - Z.of_N S <= (n - Z.of_N S) * 10 ^ 28)%Z as [H1 H2] by lia.
    rewrite Zle_Qle in H1, H2.
    rewrite ?inject_Z_mult, ?inject_Z_opp in H1, H2.
    unfold Zminus in H1, H2. rewrite ?inject_Z_plus, ?inject_Z_opp in H1, H2.
    change (inject_Z (10 ^ 28)) with (10000000000000000000000000000 # 1)%Q in H1, H2.
    fold s in H1, H2, Hpow. set (m := inject_Z n) in *. clearbody m s u y.
    assert (0 <= (s - (m + - s) * (10000000000000000000000000000 # 1)) * u)%Q
      by (apply Qmult_le_0_compat; lra).
    assert (0 <= ((m + - s) * (10000000000000000000000000000 # 1) + s) * u)%Q
      by (apply Qmult_le_0_compat; lra).
    split; lra. }
  assert (0 <= (v2 - v1 + (5 # 10000000000000000000000000000) * v1) * R)%Q as Hz1
    by (apply Qmult_le_0_compat; lra).
  assert (0 <= ((5 # 10000000000000000000000000000) * v1 - (v2 - v1)) * R)%Q as Hz2
    by (apply Qmult_le_0_compat; lra).
  fold R. set (z := (v2 * R)%Q).
  assert (z == v2 * R)%Q as Hz by reflexivity.
  assert (y == v1 * R)%Q as Hyy by reflexivity.
  clearbody z y. apply Qabs_Qle_condition. split; lra.
Qed.

(** [Decimal(1) / taxa] is within 1e-27 of the inverse, relatively. *)
Lemma div_one_accuracy d f :
  (0 < d)%N ->
  exists q,
    Dec.div (Dec.of_int 1) (DFin false d f) = Ok q /\
    (Qabs (Dec.value q * Dec.value (DFin false d f) - 1) <= 1 # 10 ^ 27)%Q.
Proof.
  intros Hd. unfold Dec.div, Dec.of_int.
  change (1 <? 0)%Z with false. change (Z.abs_N 1) with 1%N.
  change (xorb false false) with false.
  destruct (N.eqb_spec d 0) as [|_]; [lia|].
  change (1 =? 0)%N with false. cbv iota.
  change (Dec.ndigits 1) with 1%N.
  destruct (ndigits_spec d Hd) as (HL & Hlo & Hhi).
  set (L := Dec.ndigits d) in *. clearbody L.
  replace (Z.of_N L - Z.of_N 1 + Z.of_N Dec.prec + 1)%Z with (Z.of_N (L + 28))
    by (unfold Dec.prec; lia).
  destruct (Z.leb_spec 0 (Z.of_N (L + 28))) as [_|]; [|lia].
  rewrite N2Z.id, N.mul_1_l.
  set (S := (10 ^ (L + 28))%N).
  assert (d * 10 ^ 28 <= S)%N as HS.
  { unfold S. rewrite N.pow_add_r. pose proof (pow10_pos 28).
    generalize dependent (10 ^ 28)%N. generalize dependent (10 ^ L)%N. intros. nia. }
  assert (0 < S)%N as HSpos by apply pow10_pos.
  set (exp := (0 - f - Z.of_N (L + 28))%Z).
  assert (inject_Z (Z.of_N S) * 10 ^ (exp + f) == 1)%Q as Hpow.
  { replace (exp + f)%Z with (- Z.of_N (L + 28))%Z by (unfold exp; lia).
    rewrite Qpower10_neg by lia. unfold S.
    rewrite N2Z.inj_pow. change (Z.of_N 10) with 10%Z.
    apply Qmult_inv_r. change 0%Q with (inject_Z 0). rewrite inject_Z_injective.
    apply Z.pow_nonzero; lia. }
  pose proof (N.Div0.div_mod S d) as Hdm.
  pose proof (N.mod_lt S d ltac:(lia)) as Hm.
  set (coeff := (S / d)%N) in *. set (rem := (S mod d)%N) in *.
  assert (0 < coeff)%N as Hcoeff.
  { destruct (N.eq_dec coeff 0%N) as [E|]; [|lia]. rewrite E in Hdm. 
    pose proof (pow10_pos 28). nia. }
  clearbody coeff rem S.
  destruct (N.eqb_spec rem 0) as [Hr|Hr].
  - pose proof (strip_zeros_value (N.to_nat (Dec.ndigits coeff)) coeff exp (0 - f)) as Hsv.
    pose proof (strip_zeros_pos (N.to_nat (Dec.ndigits coeff)) coeff exp (0 - f) Hcoeff) as Hsp.
    destruct (Dec.strip_zeros _ coeff exp (0 - f)) as [c' e']. simpl in Hsv, Hsp.
    destruct (fix_rel_error c' e' Hsp) as (c2 & e2 & -> & Herr).
    eexists. split; [reflexivity|].
    eapply (inverse_bound coeff d f S exp _ _ Hd HSpos Hpow); [|exact Hsv|exact Herr].
    replace (Z.of_N coeff * Z.of_N d - Z.of_N S)%Z with 0%Z by lia. simpl. lia.
  - set (c1 := if (coeff mod 5 =? 0)%N then (coeff + 1)%N else coeff).
    assert (c1 = coeff \/ c1 = coeff + 1)%N as Hc1
      by (unfold c1; destruct (_ =? _)%N; auto).
    clearbody c1.
    destruct (fix_rel_error c1 exp ltac:(lia)) as (c2 & e2 & -> & Herr).
    eexists. split; [reflexivity|].
    eapply (inverse_bound c1 d f S exp _ _ Hd HSpos Hpow); [|reflexivity|exact Herr].
    assert (Z.abs (Z.of_N c1 * Z.of_N d - Z.of_N S) <= Z.of_N d)%Z by (destruct Hc1; subst c1; nia).
    nia.
Qed.

(** The result object of a successful [calcular], by exact arithmetic. *)
Lemma calcular_exact vc ve d f de para now :
  (0 < vc)%N -> (0 < d)%N ->
  (vc * d < 10 ^ 28)%N ->
  (0 < Spec.quantized_coef (vc * d) (ve + f))%N ->
  (Spec.quantized_coef (vc * d) (ve + f) < 10 ^ 28)%N ->
  exists inversa,
    Dec.div (Dec.of_int 1) (DFin false d f) = Ok inversa /\
    (Qabs (Dec.value inversa * Dec.value (DFin false d f) - 1) <= 1 # 10 ^ 27)%Q /\
    calcular (DFin false vc ve) (DFin false d f) de para now =
      Ok (Conversao.mk None (DFin false vc ve)
            (DFin false (Spec.quantized_coef (vc * d) (ve + f)) (-2))
            de para (DFin false d f) inversa now None).
Proof.
  intros Hvc Hd Hfit Hq0 Hq.
  destruct (div_one_accuracy d f Hd) as (inversa & Hdiv & Hacc).
  exists inversa. split; [done|]. split; [done|].
  unfold calcular, mbind, Res_bind.
  rewrite (mul_exact false vc ve false d f Hfit). simpl xorb.
  rewrite quantize_ok by (done || lia).
  assert (Dec.is_zero (DFin false d f) = false) as -> by (simpl; apply N.eqb_neq; lia).
  rewrite Hdiv. unfold Conversao.new. simpl.
  destruct (N.eqb_spec vc 0); [lia|].
  destruct (N.eqb_spec (Spec.quantized_coef (vc * d) (ve + f)) 0); [lia|].
  done.
Qed.

(** C1, as the code has it.  Take a positive amount, two different
    currencies and a rate obtained, read from the cache or fetched and
    stored.  If the product of the two coefficients fits the 28 digits of
    the decimal context, and the product of the two values, rounded half
    up to two places, is above zero and below 10^26, then [converter]
    returns a conversion whose converted amount is exactly that rounding,
    kept at exponent -2; it records the amount and the rate as given, and
    its inverse rate is the decimal quotient [1 / taxa], not quantized:
    times the rate it is within 10^-27 of 1. *)
Theorem C1_converter_result env st valor de_moeda para_moeda salvar s d f st1 :
  let de := normalizar de_moeda in
  let para := normalizar para_moeda in
  let taxa := DFin s d f in
  let x := (Dec.value (valor_decimal valor) * Dec.value taxa)%Q in
  valor_le0 valor = false ->
  de <> para ->
  obter_taxa env (log st Log.INFO (Log.Convertendo (valor_decimal valor) de para))
    de para = (Ok taxa, st1) ->
  (v_coef valor * d < 10 ^ 28)%N ->
  (0 < Spec.round_half_up_2 x)%Q ->
  (Spec.round_half_up_2 x < inject_Z (10 ^ 26))%Q ->
  exists c st',
    converter env st valor de_moeda para_moeda salvar = (Ok c, st') /\
    (Dec.value (Conversao.valor_convertido c) == Spec.round_half_up_2 x)%Q /\
    (exists coef, Conversao.valor_convertido c = DFin false coef (-2)) /\
    Conversao.valor_original c = valor_decimal valor /\
    Conversao.taxa c = taxa /\
    Dec.div (Dec.of_int 1) taxa = Ok (Conversao.taxa_inversa c) /\
    (Qabs (Dec.value (Conversao.taxa_inversa c) * Dec.value taxa - 1) <= 1 # 10 ^ 27)%Q.
Proof.
  intros de para taxa x Hle Hne Hrate Hfit Hpos Hlt.
  destruct valor as [vs vc ve]. unfold valor_le0 in Hle. simpl in Hle, Hfit.
  apply orb_false_iff in Hle as [-> Hvc%N.eqb_neq].
  unfold valor_decimal in *. simpl v_sign in *. simpl v_coef in *. simpl v_exp in *.
  pose proof (round_half_up_2_pos x Hpos) as Hx.
  assert (s = false /\ (0 < d)%N) as [-> Hd].
  { pose proof (value_nonneg vc ve) as Hv. pose proof (value_nonneg d f) as Ht.
    unfold x, taxa in Hx.
    destruct s.
    - exfalso. change (Dec.value (DFin true d f)) with (- Dec.value (DFin false d f))%Q in Hx.
      set (a := Dec.value (DFin false vc ve)) in *.
      set (b := Dec.value (DFin false d f)) in *. clearbody a b.
      assert (0 <= a * b)%Q by (by apply Qmult_le_0_compat). lra.
    - split; [done|]. destruct (N.eq_dec d 0%N) as [->|]; [|lia].
      exfalso.
      assert (Dec.value (DFin false 0 f) == 0)%Q as Hz
        by (simpl; change (inject_Z 0) with 0%Q; ring).
      rewrite Hz in Hx. lra. }
  unfold taxa in *.
  assert (x == Dec.value (DFin false (vc * d) (ve + f)))%Q as Hxv
    by (unfold x; by rewrite value_mul).
  pose proof (quantized_value (vc * d) (ve + f)) as Hqv.
  rewrite <- (round_half_up_2_comp _ _ Hxv) in Hqv.
  set (q := Spec.quantized_coef (vc * d) (ve + f)) in *.
  assert (0 < q /\ q < 10 ^ 28)%N as [Hq0 Hq28].
  { rewrite <- Hqv in Hpos, Hlt. unfold Dec.value in Hpos, Hlt.
    change (10 ^ (-2))%Q with (1 # 100)%Q in Hpos, Hlt.
    assert (0 < inject_Z (Z.of_N q) /\
            inject_Z (Z.of_N q) < inject_Z (10 ^ 26) * 100)%Q as [H0 H1].
    { set (n := inject_Z (Z.of_N q)) in *. set (b := inject_Z (10 ^ 26)) in *.
      clearbody n b. split; lra. }
    change 0%Q with (inject_Z 0) in H0. rewrite <- Zlt_Qlt in H0.
    change 100%Q with (inject_Z 100) in H1.
    rewrite <- inject_Z_mult, <- Zlt_Qlt in H1.
    change (10 ^ 26 * 100)%Z with (Z.of_N (10 ^ 28)) in H1. lia. }
  destruct (calcular_exact vc ve d f de para (now st1)
              ltac:(lia) Hd Hfit Hq0 Hq28) as (inversa & Hdiv & Hacc & Hcalc).
  fold q in Hcalc.
  pose proof (converter_run env st (mkValor false vc ve) de_moeda para_moeda salvar
                (DFin false d f) st1 ltac:(simpl; by apply N.eqb_neq) Hne Hrate) as Hrun.
  fold de para in Hrun. unfold valor_decimal in Hrun. simpl in Hrun.
  rewrite Hcalc in Hrun.
  destruct salvar; eexists _, _; (split; [exact Hrun|]); simpl;
    (split; [exact Hqv|]); (split; [by eexists|]); done.
Qed.

Lemma C1_converter_result_witness :
  let x := (Dec.value (DFin false 100 0) * Dec.value (DFin false 50745 (-4)))%Q in
  (exists c st',
     converter Exemplo.env Exemplo.inicio (valor_of_int 100) "USD" "BRL" false
       = (Ok c, st') /\
     (Dec.value (Conversao.valor_convertido c) == Spec.round_half_up_2 x)%Q /\
     (exists coef, Conversao.valor_convertido c = DFin false coef (-2)) /\
     Conversao.valor_original c = DFin false 100 0 /\
     Conversao.taxa c = DFin false 50745 (-4) /\
     Dec.div (Dec.of_int 1) (DFin false 50745 (-4)) = Ok (Conversao.taxa_inversa c) /\
     (Qabs (Dec.value (Conversao.taxa_inversa c) * Dec.value (DFin false 50745 (-4)) - 1)
      <= 1 # 10 ^ 27)%Q) /\
  (Spec.round_half_up_2 x == 50745 # 100)%Q /\
  Dec.div (Dec.of_int 1) (DFin false 50745 (-4)) =
    Ok (DFin false 1970637501231648438269780274 (-28)).
Proof.
  intros x. split; [|split; [by vm_compute | by vm_compute]].
  apply (C1_converter_result Exemplo.env Exemplo.inicio (valor_of_int 100)
           "USD" "BRL" false false 50745 (-4)
           (obter_taxa Exemplo.env
              (log Exemplo.inicio Log.INFO
                 (Log.Convertendo (DFin false 100 0) "USD" "BRL")) "USD" "BRL").2).
  - reflexivity.
  - by vm_compute.
  - vm_compute. reflexivity.
  - reflexivity.
  - by vm_compute.
  - by vm_compute.
Defined.

(** A positive amount, two different currencies, a rate obtained, and
    yet no result: one cent of a dollar at 0.000015 rounds to 0.00 and
    the result object refuses it. *)
Lemma C1_no_result_when_rounding_to_zero :
  let env := Exemplo.env_taxa (DFin false 15 (-6)) in
  let valor := mkValor false 1 (-2) in
  valor_le0 valor = false /\
  normalizar "USD" <> normalizar "BTC" /\
  (obter_taxa env
     (log Exemplo.inicio Log.INFO (Log.Convertendo (valor_decimal valor) "USD" "BTC"))
     "USD" "BTC").1 = Ok (DFin false 15 (-6)) /\
  (Spec.round_half_up_2 (Dec.value (valor_decimal valor) * Dec.value (DFin false 15 (-6)))
   == 0)%Q /\
  (converter env Exemplo.inicio valor "USD" "BTC" false).1 = Raise ValidationError /\
  ~ exists c st', converter env Exemplo.inicio valor "USD" "BTC" false = (Ok c, st').
Proof.
  intros env valor.
  assert ((converter env Exemplo.inicio valor "USD" "BTC" false).1 = Raise ValidationError)
    as Hraise by (vm_compute; reflexivity).
  split; [reflexivity|]. split; [by vm_compute|]. split; [vm_compute; reflexivity|].
  split; [by vm_compute|]. split; [exact Hraise|].
  intros (c & st' & Hok). apply (f_equal fst) in Hok.
  pose proof (eq_trans (eq_sym Hraise) Hok) as Hbad. discriminate Hbad.
Qed.

(** Why the product has to fit the context: with a rate of 29 digits the
    product is first rounded to 28 digits (half even) and then to two
    places (half up), and the two roundings together send 1.00499...9 to
    1.01, not to 1.00. *)
Lemma converter_double_rounding :
  let taxa := DFin false 10049999999999999999999999999 (-28) in
  let env := Exemplo.env_taxa taxa in
  exists c st',
    converter env Exemplo.inicio (valor_of_int 1) "USD" "BRL" false = (Ok c, st') /\
    Conversao.valor_convertido c = DFin false 101 (-2) /\
    (Spec.round_half_up_2 (Dec.value (DFin false 1 0) * Dec.value taxa) == 1)%Q.
Proof.
  eexists _, _. split; [vm_compute; reflexivity|]. split; [reflexivity | by vm_compute].
Qed.

(** Why the rounded product has to stay below 10^26: at exponent -2 a
    larger one needs more than 28 digits and [quantize] refuses it. *)
Lemma converter_result_too_large :
  (converter (Exemplo.env_taxa (DFin false 1 0)) Exemplo.inicio (mkValor false 1 26)
     "USD" "BRL" false).1 = Raise InvalidOperation.
Proof. vm_compute. reflexivity. Qed.

(** * Properties of the rest of the sources *)

(** ** The cache as a store *)

(** [get] never changes the time to live. *)
Lemma get_ttl c now key : ttl (get c now key).2 = ttl c.
Proof.
  unfold get. destruct (_memory_cache c !! key).
  { by destruct (_is_valid c now key). }
  destruct (cache_dir c !! key) as [f|]; [|done].
  destruct f as [| |[[t|t| |]|] [v|]]; simpl; try done;
    by case_bool_decide.
Qed.











(** X5.  The memory tier and the timestamps always hold the same keys:
    they do in a new cache, and every operation keeps them in step.  (So
    the branch of [_is_valid] for a key without timestamp is never taken
    by [get].) *)
Theorem cache_tiers_in_step c now key v io :
  Spec2.em_passo c ->
  Spec2.em_passo (new (ttl c) (cache_dir c)) /\
  Spec2.em_passo (get c now key).2 /\
  Spec2.em_passo (set c now key v io).2 /\
  Spec2.em_passo (delete c key) /\
  Spec2.em_passo (clear c).
Proof.
  unfold Spec2.em_passo. intros H. repeat split.
  - unfold get. destruct (_memory_cache c !! key).
    { destruct (_is_valid c now key); simpl; [done|].
      by rewrite !dom_delete_L, H. }
    destruct (cache_dir c !! key) as [f|]; [|done].
    destruct f as [| |[[t|t| |]|] [w|]]; simpl; try done;
      try case_bool_decide; simpl; try done.
    by rewrite !dom_insert_L, H.
  - destruct io; simpl; by rewrite !dom_insert_L, H.
  - simpl. by rewrite !dom_delete_L, H.
Qed.

Lemma cache_tiers_in_step_witness :
  Spec2.em_passo (new (ttl (new 3600 ∅)) (cache_dir (new 3600 ∅))) /\
  Spec2.em_passo (get (new 3600 ∅) 0 "k").2 /\
  Spec2.em_passo (set (new 3600 ∅) 0 "k" VNone WriteOk).2 /\
  Spec2.em_passo (delete (new 3600 ∅) "k") /\
  Spec2.em_passo (clear (new 3600 ∅)).
Proof. apply cache_tiers_in_step. reflexivity. Defined.



(** ** The [cached] decorator *)

Section CachedProperties.
Context {Args W : Type}.
Variable key_of : Args -> string.
Variable func : Args -> W -> Res PyVal * W.
Variable clock : W -> Z.

(** X7.  Once the wrapped function has run and returned something
    other than [None], every call whose arguments give the same key and
    that starts before the time to live has passed returns that result
    without running the function: the world is untouched and so is the
    cache.  This holds even when the first call failed to write the cache
    file. *)
Theorem cached_hit_skips_function c w args io c0 r w1 :
  get c (clock w) (key_of args) = (Ok VNone, c0) ->
  func args w = (Ok r, w1) ->
  r <> VNone ->
  let c2 := (Cached.wrapper key_of func clock c w args io).1.2 in
  (Cached.wrapper key_of func clock c w args io).2 = w1 /\
  forall args' w2 io',
    key_of args' = key_of args ->
    (clock w2 - clock w1 < ttl_delta c)%Z ->
    Cached.wrapper key_of func clock c2 w2 args' io' = (Ok r, c2, w2).
Proof.
  intros Hget Hf Hr.
  assert (ttl c0 = ttl c) as Httl.
  { pose proof (get_ttl c (clock w) (key_of args)) as H. by rewrite Hget in H. }
  assert ((Cached.wrapper key_of func clock c w args io).1.2 =
          (set c0 (clock w1) (key_of args) r io).2 /\
          (Cached.wrapper key_of func clock c w args io).2 = w1) as [-> ->].
  { unfold Cached.wrapper. rewrite Hget, Hf. by destruct io. }
  simpl. split; [done|]. intros args' w2 io' Hk Hlt.
  unfold Cached.wrapper. rewrite Hk.
  assert (get (set c0 (clock w1) (key_of args) r io).2 (clock w2) (key_of args) =
          (Ok r, (set c0 (clock w1) (key_of args) r io).2)) as ->.
  { unfold get, _is_valid, ttl_delta in *.
    destruct io; simpl; rewrite !lookup_insert_eq; simpl;
      rewrite Httl; by rewrite bool_decide_eq_true_2. }
  by destruct r.
Qed.

(** X8.  A result of [None] is stored but never served: after a call
    in which the function returned [None], every later call with the
    same key runs the function again, whatever the time. *)
Theorem cached_none_is_recomputed c w args io c0 w1 :
  get c (clock w) (key_of args) = (Ok VNone, c0) ->
  func args w = (Ok VNone, w1) ->
  let c2 := (Cached.wrapper key_of func clock c w args io).1.2 in
  forall args' w2 io',
    key_of args' = key_of args ->
    (Cached.wrapper key_of func clock c2 w2 args' io').2 = (func args' w2).2 /\
    (io' = WriteOk ->
     (Cached.wrapper key_of func clock c2 w2 args' io').1.1 = (func args' w2).1).
Proof.
  intros Hget Hf.
  assert ((Cached.wrapper key_of func clock c w args io).1.2 =
          (set c0 (clock w1) (key_of args) VNone io).2) as ->.
  { unfold Cached.wrapper. rewrite Hget, Hf. by destruct io. }
  simpl. intros args' w2 io' Hk.
  unfold Cached.wrapper. rewrite Hk.
  assert (exists c3,
    get (set c0 (clock w1) (key_of args) VNone io).2 (clock w2) (key_of args) =
      (Ok VNone, c3)) as [c3 ->].
  { unfold get, _is_valid.
    destruct io; simpl; rewrite !lookup_insert_eq; simpl;
      case_bool_decide; by eexists. }
  destruct (func args' w2) as [[r'|e] w3]; simpl; [|done].
  split.
  - by destruct (set _ _ _ _ _) as [[] ?].
  - intros ->. done.
Qed.

End CachedProperties.

Lemma cached_hit_skips_function_witness :
  let wrapper := Cached.wrapper (fun _ : unit => "k") (fun _ w => (Ok (VInt 7), (w + 5)%Z)) id in
  let c2 := (wrapper (new 60 ∅) 0%Z () OpenFails).1.2 in
  (wrapper (new 60 ∅) 0%Z () OpenFails).2 = 5%Z /\
  forall args' w2 io',
    (fun _ : unit => "k") args' = "k" ->
    (id w2 - id 5 < ttl_delta (new 60 ∅))%Z ->
    wrapper c2 w2 args' io' = (Ok (VInt 7), c2, w2).
Proof.
  apply (cached_hit_skips_function (fun _ : unit => "k")
           (fun _ w => (Ok (VInt 7), (w + 5)%Z)) id (new 60 ∅) 0%Z () OpenFails
           (new 60 ∅) (VInt 7) 5%Z); [reflexivity | reflexivity | discriminate].
Defined.

Lemma cached_none_is_recomputed_witness :
  let wrapper := Cached.wrapper (fun _ : unit => "k") (fun _ w => (Ok VNone, (w + 5)%Z)) id in
  let c2 := (wrapper (new 60 ∅) 0%Z () WriteOk).1.2 in
  (wrapper c2 7%Z () WriteOk).2 = (7 + 5)%Z /\
  (WriteOk = WriteOk -> (wrapper c2 7%Z () WriteOk).1.1 = Ok VNone).
Proof.
  apply (cached_none_is_recomputed (fun _ : unit => "k")
           (fun _ w => (Ok VNone, (w + 5)%Z)) id (new 60 ∅) 0%Z () WriteOk
           (new 60 ∅) 5%Z); reflexivity.
Defined.

(** ** The provider clients *)

(** The clients read a payload as the engine reads a cached one. *)
Lemma Decimal_str_of_str env v :
  PyOps.Decimal_str (Decimal_of_text env) v = Decimal_of_str env v.
Proof. by destruct v. Qed.

Lemma fazer_requisicao_falha nome url_base endpoint t :
  Spec2.falha_de_transporte t = true ->
  exists e,
    Http._fazer_requisicao nome url_base endpoint t = Raise (APIError e) /\
    status_code e = match t with Http.HTTPError s _ => Some s | _ => None end /\
    details e !! 0%nat = Some ("url", VStr (url_base +:+ endpoint)).
Proof. destruct t; try done; intros _; by eexists. Qed.



(** X10.  The key-less provider's pair rate, for a body that is a JSON
    object whose "rates" is an object or is missing: the quote listed
    under the target currency, read as [Decimal(str(quote))]; and the
    [APIError] "Moeda {target} não encontrada" when the target is not
    listed or there is no "rates" at all.  No rate is ever made up. *)
Theorem frankfurter_obter_taxa_par_cases parse fields de para :
  let rates :=
    match PyOps.dict_get fields "rates" with
    | None => Some []
    | Some (VDict rates) => Some rates
    | Some _ => None
    end in
  forall quotes, rates = Some quotes ->
  FrankfurterClient.obter_taxa_par parse (Http.Json (VDict fields)) de para =
    match PyOps.dict_get quotes para with
    | Some quote => PyOps.Decimal_str parse quote
    | None => Raise (FrankfurterClient.nao_encontrada para)
    end.
Proof.
  simpl. intros quotes H.
  unfold FrankfurterClient.obter_taxa_par. simpl.
  destruct (PyOps.dict_get fields "rates") as [[]|]; simplify_eq; simpl;
    by destruct (PyOps.dict_get _ para).
Qed.

Lemma frankfurter_obter_taxa_par_cases_witness :
  FrankfurterClient.obter_taxa_par (fun _ => Raise InvalidOperation)
    (Http.Json (VDict [("amount", VInt 1); ("rates", VDict [("BRL", VInt 5)])]))
    "USD" "BRL" = Ok (DFin false 5 0).
Proof.
  apply (frankfurter_obter_taxa_par_cases (fun _ => Raise InvalidOperation)
           [("amount", VInt 1); ("rates", VDict [("BRL", VInt 5)])] "USD" "BRL"
           [("BRL", VInt 5)]).
  vm_compute. reflexivity.
Defined.

(** X11.  The keyed provider's pair rate, for a body that is a JSON
    object: an error envelope raises the [APIError] of [_tratar_erro]
    even when a rate is present; otherwise a missing or null
    "conversion_rate" raises the [APIError] "Taxa não encontrada na
    resposta", and any other value is read as [Decimal(str(value))]. *)
Theorem exchangerate_obter_taxa_par_cases parse key fields de para :
  ExchangeRateClient.obter_taxa_par parse key (Http.Json (VDict fields)) de para =
    match ExchangeRate._tratar_erro (list_to_map fields) with
    | Raise e => Raise e
    | Ok _ =>
        match PyOps.dict_get fields "conversion_rate" with
        | None | Some VNone => Raise ExchangeRateClient.sem_taxa
        | Some taxa => PyOps.Decimal_str parse taxa
        end
    end.
Proof.
  unfold ExchangeRateClient.obter_taxa_par. simpl.
  destruct (ExchangeRate._tratar_erro _); simpl; [|done].
  by destruct (PyOps.dict_get fields "conversion_rate") as [[]|].
Qed.

Lemma decimais_keys parse fields l :
  PyOps.decimais parse fields = Ok l ->
  l.*1 = fields.*1 /\
  Forall2 (fun kd kv => PyOps.Decimal_str parse kv.2 = Ok kd.2) l fields.
Proof.
  revert l. induction fields as [|[k v] fields IH]; intros l; simpl.
  { by intros [= <-]. }
  unfold mbind, Res_bind.
  destruct (PyOps.Decimal_str parse v) as [d|] eqn:Ed; [|done].
  destruct (PyOps.decimais parse fields) as [ds|]; [|done].
  intros [= <-]. destruct (IH ds eq_refl) as [IH1 IH2].
  split; simpl; [by f_equal | by constructor].
Qed.

(** X12.  The rate tables: when [obter_taxas] of either client returns,
    the table lists exactly the currencies of the provider's rates
    object, in its order, each with [Decimal(str(quote))]; a body without
    a rates object gives the empty table, not an error. *)
Theorem obter_taxas_table parse key fields base :
  (forall l,
     FrankfurterClient.obter_taxas parse (Http.Json (VDict fields)) base = Ok l ->
     exists quotes,
       default (VDict []) (PyOps.dict_get fields "rates") = VDict quotes /\
       l.*1 = quotes.*1 /\
       Forall2 (fun kd kv => PyOps.Decimal_str parse kv.2 = Ok kd.2) l quotes) /\
  (forall l,
     ExchangeRateClient.obter_taxas parse key (Http.Json (VDict fields)) base = Ok l ->
     exists quotes,
       default (VDict []) (PyOps.dict_get fields "conversion_rates") = VDict quotes /\
       l.*1 = quotes.*1 /\
       Forall2 (fun kd kv => PyOps.Decimal_str parse kv.2 = Ok kd.2) l quotes) /\
  (PyOps.dict_get fields "rates" = None ->
   FrankfurterClient.obter_taxas parse (Http.Json (VDict fields)) base = Ok []) /\
  (PyOps.dict_get fields "conversion_rates" = None ->
   ExchangeRate._tratar_erro (list_to_map fields) = Ok () ->
   ExchangeRateClient.obter_taxas parse key (Http.Json (VDict fields)) base = Ok []).
Proof.
  unfold FrankfurterClient.obter_taxas, ExchangeRateClient.obter_taxas. simpl.
  repeat split.
  - intros l. destruct (default _ _); try done. simpl.
    intros H%decimais_keys. by eexists.
  - intros l. destruct (ExchangeRate._tratar_erro _); [|done]. simpl.
    destruct (default _ _); try done. simpl.
    intros H%decimais_keys. by eexists.
  - by intros ->.
  - by intros -> ->.
Qed.

Lemma historico_de_days parse destino days l :
  FrankfurterClient.historico_de parse destino days = Ok l ->
  l.*1 = days.*1 /\
  forall date values,
    (date, VDict values) ∈ days ->
    PyOps.dict_get values destino = None ->
    (date, DFin false 0 0) ∈ l.
Proof.
  revert l. induction days as [|[d v] days IH]; intros l; simpl.
  { intros [= <-]. split; [done|]. by intros ?? ?%elem_of_nil. }
  unfold mbind, Res_bind.
  destruct (PyOps.get v destino (VInt 0)) as [q|] eqn:Eq; [|done].
  destruct (PyOps.Decimal_str parse q) as [x|] eqn:Ex; [|done].
  destruct (FrankfurterClient.historico_de parse destino days) as [ds|]; [|done].
  intros [= <-]. destruct (IH ds eq_refl) as [IH1 IH2].
  split; [simpl; by f_equal|].
  intros date values [[= <- <-]|Hin]%elem_of_cons Hnone.
  - simpl in Eq. rewrite Hnone in Eq. simpl in Eq. injection Eq as <-.
    simpl in Ex. injection Ex as <-. apply elem_of_cons. by left.
  - apply elem_of_cons. right. by eapply IH2.
Qed.

(** X13.  The history of the key-less provider lists one rate per day
    of the provider's answer, in its order; a day on which the target
    currency is not quoted is reported with the rate 0, not left out and
    not an error. *)
Theorem obter_historico_missing_quote_is_zero
  parse fields days base destino ini fim l date values :
  PyOps.dict_get fields "rates" = Some (VDict days) ->
  (date, VDict values) ∈ days ->
  PyOps.dict_get values destino = None ->
  FrankfurterClient.obter_historico parse (Http.Json (VDict fields))
    base destino ini fim = Ok l ->
  l.*1 = days.*1 /\ (date, DFin false 0 0) ∈ l.
Proof.
  intros Hr Hin Hnone. unfold FrankfurterClient.obter_historico. simpl.
  rewrite Hr. simpl. intros [H1 H2]%historico_de_days. split; [done|].
  by eapply H2.
Qed.

Lemma obter_historico_missing_quote_is_zero_witness :
  [("2024-01-02", DFin false 0 0)].*1 =
    [("2024-01-02", VDict [("EUR", VInt 1)])].*1 /\
  ("2024-01-02", DFin false 0 0) ∈ [("2024-01-02", DFin false 0 0)].
Proof.
  apply (obter_historico_missing_quote_is_zero (fun _ => Raise InvalidOperation)
           [("rates", VDict [("2024-01-02", VDict [("EUR", VInt 1)])])]
           [("2024-01-02", VDict [("EUR", VInt 1)])]
           "USD" "BRL" "2024-01-01" "2024-01-03" _ "2024-01-02" [("EUR", VInt 1)]);
    [reflexivity | apply list_elem_of_here | reflexivity | reflexivity].
Defined.

(** ** The engine over the two clients *)

(** [converter] when the rate cannot be obtained. *)
Lemma converter_sem_taxa env st valor de_moeda para_moeda salvar e st1 :
  valor_le0 valor = false ->
  normalizar de_moeda <> normalizar para_moeda ->
  obter_taxa env
    (log st Log.INFO
       (Log.Convertendo (valor_decimal valor) (normalizar de_moeda)
          (normalizar para_moeda)))
    (normalizar de_moeda) (normalizar para_moeda) = (Raise e, st1) ->
  converter env st valor de_moeda para_moeda salvar =
    (Raise e,
     log st1 Log.ERROR
       match e with
       | APIError a => Log.ErroDaAPI a
       | _ => Log.ErroInesperado e
       end).
Proof.
  intros Hpos Hne Ht. unfold converter. rewrite Hpos.
  rewrite bool_decide_eq_false_2 by done.
  unfold converter_try. rewrite Ht. by destruct e.
Qed.

(** X14.  When every request fails in the HTTP layer, a conversion that
    misses the cache asks both providers, in priority order, and raises
    the manager's [APIError], whose message lists both failures; nothing
    is written to the cache and nothing is saved to the history. *)
Theorem converter_all_transports_down m st valor de_moeda para_moeda salvar c :
  valor_le0 valor = false ->
  normalizar de_moeda <> normalizar para_moeda ->
  clients st = [FrankfurterClient.nome; ExchangeRate.nome] ->
  Cache.get (cache st) (now st)
    (cache_key (normalizar de_moeda) (normalizar para_moeda)) = (Ok VNone, c) ->
  (forall n url, Spec2.falha_de_transporte (Provedores.http m n url).1 = true) ->
  exists e1 e2 st',
    converter (Provedores.env m) st valor de_moeda para_moeda salvar =
      (Raise (APIError (Manager.todas_falharam
                          ["Frankfurter: " +:+ message e1;
                           "ExchangeRate-API: " +:+ message e2])), st') /\
    cache st' = c /\
    writes st' = writes st /\
    historico st' = historico st /\
    requests st' =
      requests st ++
        [("Frankfurter", normalizar de_moeda, normalizar para_moeda);
         ("ExchangeRate-API", normalizar de_moeda, normalizar para_moeda)].
Proof.
  intros Hpos Hne Hcl Hget Hdown.
  set (de := normalizar de_moeda) in *. set (para := normalizar para_moeda) in *.
  pose proof (Hdown (length (requests st))
    (FrankfurterClient.url_base +:+ "/latest?from=" +:+ de +:+ "&to=" +:+ para)) as H1.
  pose proof (Hdown (S (length (requests st)))
    (ExchangeRateClient.url_base (Provedores.chave m) +:+ "/pair/" +:+ de +:+ "/" +:+ para))
    as H2.
  destruct (Provedores.http m (length (requests st)) _) as [t1 dt1] eqn:Et1.
  destruct (Provedores.http m (S (length (requests st))) _) as [t2 dt2] eqn:Et2.
  simpl in H1, H2.
  destruct (fazer_requisicao_falha FrankfurterClient.nome FrankfurterClient.url_base
              ("/latest?from=" +:+ de +:+ "&to=" +:+ para) t1 H1) as (e1 & He1 & _).
  destruct (fazer_requisicao_falha ExchangeRate.nome
              (ExchangeRateClient.url_base (Provedores.chave m))
              ("/pair/" +:+ de +:+ "/" +:+ para) t2 H2) as (e2 & He2 & _).
  exists e1, e2. eexists.
  split.
  { erewrite converter_sem_taxa; [reflexivity | done | done |].
    unfold obter_taxa. simpl. fold de para. rewrite Hget.
    unfold obter_taxa_par, Manager._executar_com_fallback. simpl. rewrite Hcl.
    simpl. unfold Provedores.respond. simpl.
    rewrite Et1. simpl.
    unfold FrankfurterClient.obter_taxa_par. rewrite He1. simpl.
    rewrite length_app. simpl. rewrite Nat.add_1_r, Et2. simpl.
    unfold ExchangeRateClient.obter_taxa_par. rewrite He2. simpl.
    reflexivity. }
  simpl. repeat split. by rewrite <- app_assoc.
Qed.

Lemma converter_all_transports_down_witness :
  exists e1 e2 st',
    converter (Provedores.env Spec2.sem_rede) Exemplo.inicio (valor_of_int 100)
      "usd" " brl" true =
      (Raise (APIError (Manager.todas_falharam
                          ["Frankfurter: " +:+ message e1;
                           "ExchangeRate-API: " +:+ message e2])), st') /\
    cache st' = cache Exemplo.inicio /\
    writes st' = writes Exemplo.inicio /\
    historico st' = historico Exemplo.inicio /\
    requests st' =
      requests Exemplo.inicio ++
        [("Frankfurter", normalizar "usd", normalizar " brl");
         ("ExchangeRate-API", normalizar "usd", normalizar " brl")].
Proof.
  apply (converter_all_transports_down Spec2.sem_rede Exemplo.inicio
           (valor_of_int 100) "usd" " brl" true (cache Exemplo.inicio));
    [reflexivity | vm_compute; discriminate | reflexivity | reflexivity
    | intros; reflexivity].
Defined.

(** X15.  A body that is valid JSON but not an object (a list, a text, a
    number, null) makes the key-less client fail with an
    [AttributeError], which is not an [APIError]: the manager does not
    fall back, no later provider is asked, and [converter] logs
    "Erro inesperado" and raises that exception. *)
Theorem malformed_body_escapes_fallback
  m st valor de_moeda para_moeda salvar c outros body dt :
  valor_le0 valor = false ->
  normalizar de_moeda <> normalizar para_moeda ->
  clients st = FrankfurterClient.nome :: outros ->
  Cache.get (cache st) (now st)
    (cache_key (normalizar de_moeda) (normalizar para_moeda)) = (Ok VNone, c) ->
  Provedores.http m (length (requests st))
    (FrankfurterClient.url_base +:+ "/latest?from=" +:+ normalizar de_moeda
       +:+ "&to=" +:+ normalizar para_moeda) = (Http.Json body, dt) ->
  (forall fields, body <> VDict fields) ->
  exists st',
    converter (Provedores.env m) st valor de_moeda para_moeda salvar =
      (Raise (OtherException "AttributeError"), st') /\
    requests st' =
      requests st ++ [("Frankfurter", normalizar de_moeda, normalizar para_moeda)] /\
    last (logger st') =
      Some (Log.ERROR, Log.ErroInesperado (OtherException "AttributeError")) /\
    cache st' = c /\
    historico st' = historico st.
Proof.
  intros Hpos Hne Hcl Hget Hhttp Hbody.
  set (de := normalizar de_moeda) in *. set (para := normalizar para_moeda) in *.
  assert (FrankfurterClient.obter_taxa_par (Provedores.decimal_de_texto m)
            (Http.Json body) de para = Raise (OtherException "AttributeError")) as Hr.
  { unfold FrankfurterClient.obter_taxa_par. simpl.
    destruct body; try done. by destruct (Hbody fields). }
  eexists. split.
  { erewrite converter_sem_taxa; [reflexivity | done | done |].
    unfold obter_taxa. simpl. fold de para. rewrite Hget.
    unfold obter_taxa_par, Manager._executar_com_fallback. simpl. rewrite Hcl.
    simpl. unfold Provedores.respond. simpl.
    rewrite Hhttp. simpl. rewrite Hr. reflexivity. }
  simpl. repeat split. by rewrite last_snoc.
Qed.

Lemma malformed_body_escapes_fallback_witness :
  exists st',
    converter (Provedores.env Spec2.resposta_em_lista) Exemplo.inicio (valor_of_int 100)
      "USD" "BRL" true =
      (Raise (OtherException "AttributeError"), st') /\
    requests st' =
      requests Exemplo.inicio ++ [("Frankfurter", normalizar "USD", normalizar "BRL")] /\
    last (logger st') =
      Some (Log.ERROR, Log.ErroInesperado (OtherException "AttributeError")) /\
    cache st' = cache Exemplo.inicio /\
    historico st' = historico Exemplo.inicio.
Proof.
  apply (malformed_body_escapes_fallback Spec2.resposta_em_lista Exemplo.inicio
           (valor_of_int 100) "USD" "BRL" true (cache Exemplo.inicio)
           ["ExchangeRate-API"] (VList []) 250000%Z);
    [reflexivity | vm_compute; discriminate | reflexivity | reflexivity
    | reflexivity | discriminate].
Defined.

(** ** The manager's currency queries *)

Section ManagerMoedas.
Context {Client S : Type}.
Variable nome_de : Client -> string.
Variable listar : Client -> S -> Res PyVal * S.

(** X16.  The manager lists the currencies once: after a call that
    returned a list (anything but [None]), every later call returns the
    same list without asking any provider and without logging; a call
    that failed leaves the memo unset, so the next one asks again. *)
Theorem manager_listar_moedas_memoized clients s r memo records s' :
  APIManager.listar_moedas nome_de listar clients VNone s = (r, memo, records, s') ->
  match r with
  | Ok m =>
      memo = m /\
      (m <> VNone ->
       forall s2, APIManager.listar_moedas nome_de listar clients memo s2 =
                    (Ok m, m, [], s2))
  | Raise _ => memo = VNone
  end.
Proof.
  unfold APIManager.listar_moedas.
  destruct (Manager._executar_com_fallback _ _ _ _ _) as [[[m|e] recs] s1];
    intros [= <- <- _ _]; [|done].
  split; [done|]. intros Hm s2. by destruct m.
Qed.

(** X17.  [verificar_moeda] never raises an [APIError]: when every
    provider fails with one, the answer is [False].  The code is looked
    up in upper case, so the answer does not depend on the case of the
    letters given. *)
Theorem verificar_moeda_never_APIError clients memo s moeda :
  (forall e, (APIManager.verificar_moeda nome_de listar clients memo s moeda).1.1.1
             <> Raise (APIError e)) /\
  APIManager.verificar_moeda nome_de listar clients memo s (Str.upper moeda) =
    APIManager.verificar_moeda nome_de listar clients memo s moeda /\
  (forall es s1,
     Spec.falham nome_de listar clients s es s1 ->
     (APIManager.verificar_moeda nome_de listar clients VNone s moeda).1.1.1 = Ok false).
Proof.
  unfold APIManager.verificar_moeda. repeat split.
  - intros e.
    destruct (APIManager.listar_moedas _ _ _ _ _) as [[[[m|x] mm] recs] s1].
    + destruct m; simpl; try done.
    + destruct x; done.
  - by rewrite upper_idemp.
  - intros es s1 Hf. unfold APIManager.listar_moedas, Manager._executar_com_fallback.
    rewrite <- (app_nil_r clients).
    rewrite (fallback_loop_falham _ _ _ _ _ _ _ Hf). done.
Qed.

Lemma get_status_loop_total clients status s :
  Spec2.so_APIError listar clients ->
  exists status' s',
    APIManager.get_status_loop nome_de listar clients status s = (Ok status', s') /\
    dom status' = dom status ∪ list_to_set (nome_de <$> clients) /\
    forall n v, status' !! n = Some v ->
      status !! n = Some v \/ v = "online" \/ v = "offline".
Proof.
  revert status s. induction clients as [|c clients IH]; intros status s Hok; simpl.
  { exists status, s. split; [done|]. split; [|by left].
    simpl. by rewrite (right_id_L ∅ (∪)). }
  assert (Spec2.so_APIError listar clients) as Hok'.
  { intros c' s' Hin. apply Hok. by right. }
  pose proof (Hok c s (list_elem_of_here _ _)) as Hc.
  destruct (listar c s) as [[m|e] s1]; simpl in Hc.
  - destruct (IH (<[nome_de c := "online"]> status) s1 Hok') as (st' & s' & -> & Hd & Hv).
    exists st', s'. split; [done|]. split.
    + rewrite Hd, dom_insert_L. simpl.
      rewrite (comm_L (∪) {[nome_de c]} (dom status)). by rewrite <- (assoc_L (∪)).
    + intros n v [Hl|Hl]%Hv; [|by right].
      destruct (decide (nome_de c = n)) as [<-|Hne].
      * rewrite lookup_insert_eq in Hl. injection Hl as <-. right. by left.
      * rewrite lookup_insert_ne in Hl by done. by left.
  - destruct e; try done.
    destruct (IH (<[nome_de c := "offline"]> status) s1 Hok') as (st' & s' & -> & Hd & Hv).
    exists st', s'. split; [done|]. split.
    + rewrite Hd, dom_insert_L. simpl.
      rewrite (comm_L (∪) {[nome_de c]} (dom status)). by rewrite <- (assoc_L (∪)).
    + intros n v [Hl|Hl]%Hv; [|by right].
      destruct (decide (nome_de c = n)) as [<-|Hne].
      * rewrite lookup_insert_eq in Hl. injection Hl as <-. right. by right.
      * rewrite lookup_insert_ne in Hl by done. by left.
Qed.

(** X18.  [get_status] reports on every client: when each client lists
    its currencies or fails with an [APIError], the status has exactly
    the clients' names as keys and every value is "online" or
    "offline"; no exception is raised. *)
Theorem get_status_total clients s :
  Spec2.so_APIError listar clients ->
  exists status s',
    APIManager.get_status nome_de listar clients s = (Ok status, s') /\
    dom status = list_to_set (nome_de <$> clients) /\
    forall n v, status !! n = Some v -> v = "online" \/ v = "offline".
Proof.
  intros Hok. unfold APIManager.get_status.
  destruct (get_status_loop_total clients ∅ s Hok) as (status & s' & -> & Hd & Hv).
  exists status, s'. split; [done|]. split.
  - rewrite Hd, dom_empty_L. by rewrite (left_id_L ∅ (∪)).
  - intros n v [Hl|Hl]%Hv; [|done]. by rewrite lookup_empty in Hl.
Qed.

End ManagerMoedas.

Lemma manager_listar_moedas_memoized_witness :
  match Ok (VDict [("USD", VStr "US Dollar")]) with
  | Ok m =>
      VDict [("USD", VStr "US Dollar")] = m /\
      (m <> VNone ->
       forall s2 : unit,
         APIManager.listar_moedas (fun c : string => c)
           (fun _ s => (Ok (VDict [("USD", VStr "US Dollar")]), s))
           ["Frankfurter"] (VDict [("USD", VStr "US Dollar")]) s2 = (Ok m, m, [], s2))
  | Raise _ => VDict [("USD", VStr "US Dollar")] = VNone
  end.
Proof.
  apply (manager_listar_moedas_memoized (fun c : string => c)
           (fun _ (s : unit) => (Ok (VDict [("USD", VStr "US Dollar")]), s))
           ["Frankfurter"] () _ _
           [(Log.DEBUG, Log.Tentando "Frankfurter" "listar_moedas");
            (Log.DEBUG, Log.Sucesso "Frankfurter")] ()).
  reflexivity.
Defined.

Lemma get_status_total_witness :
  exists status s',
    APIManager.get_status (fun c : string => c)
      (fun c (s : unit) =>
         (if bool_decide (c = "Frankfurter") then Ok VNone
          else Raise (APIError (mkAPIError "Erro HTTP 503" (Some 503%Z) [])), s))
      ["Frankfurter"; "ExchangeRate-API"] () = (Ok status, s') /\
    dom status = list_to_set ((fun c : string => c) <$> ["Frankfurter"; "ExchangeRate-API"]) /\
    forall n v, status !! n = Some v -> v = "online" \/ v = "offline".
Proof.
  apply get_status_total. intros c s _. simpl. by case_bool_decide.
Defined.

(** X19.  The manager knows its providers by two exact names.  When
    neither the primary nor the secondary name is one of them (the names
    are case-sensitive) the manager is built without any client, and
    then every operation raises the [APIError] "Todas as APIs falharam: "
    with an empty list of errors, without a request and without a log
    line. *)
Theorem manager_without_known_api
  {S R : Type} construir primary secondary given_key getenv
  method_name (call : APIManager.Cliente -> S -> Res R * S) s :
  primary <> "frankfurter" -> primary <> "exchangerate" ->
  default "" secondary <> "frankfurter" -> default "" secondary <> "exchangerate" ->
  (APIManager.__init__ construir primary secondary given_key getenv).1 = [] /\
  Manager._executar_com_fallback APIManager.nome method_name call
    (APIManager.__init__ construir primary secondary given_key getenv).1 s =
    (Raise (APIError (mkAPIError "Todas as APIs falharam: " None
                                 [("errors", VList [])])), [], s).
Proof.
  intros H1 H2 H3 H4.
  assert ((APIManager.__init__ construir primary secondary given_key getenv).1 = [])
    as ->; [|done].
  unfold APIManager.__init__.
  destruct secondary as [sec|]; simpl in *.
  - case_bool_decide; simpl; rewrite ?bool_decide_eq_false_2 by done; done.
  - by rewrite !bool_decide_eq_false_2 by done.
Qed.

Lemma manager_without_known_api_witness :
  (APIManager.__init__ (fun _ => None) "Frankfurter" (Some "") None None).1 = [] /\
  Manager._executar_com_fallback APIManager.nome "obter_taxa_par"
    (fun (_ : APIManager.Cliente) (s : unit) => (Ok 0%Z, s))
    (APIManager.__init__ (fun _ => None) "Frankfurter" (Some "") None None).1 () =
    (Raise (APIError (mkAPIError "Todas as APIs falharam: " None
                                 [("errors", VList [])])), [], ()).
Proof.
  apply manager_without_known_api; vm_compute; discriminate.
Defined.

(** ** The engine's currency queries *)

Section ConsultasMoedas.
Context {A : Type}.
Variable api_listar_moedas : A -> Res PyVal * A.

(** X20.  [listar_moedas] of the engine never raises an [APIError]:
    when the providers fail it answers with the ten built-in currencies,
    logs one warning and leaves its memo unset, so that the next call
    asks the providers again.  Asked for the popular currencies only, it
    answers from the built-in table without touching the providers.
    Once a list was obtained, later calls return it without asking. *)
Theorem listar_moedas_falls_back_to_popular memo a :
  Consultas.listar_moedas api_listar_moedas true memo a =
    (Ok Consultas.populares, memo, [], a) /\
  (forall e, (Consultas.listar_moedas api_listar_moedas false memo a).1.1.1
             <> Raise (APIError e)) /\
  (forall e a',
     api_listar_moedas a = (Raise (APIError e), a') ->
     Consultas.listar_moedas api_listar_moedas false VNone a =
       (Ok Consultas.populares, VNone, [Consultas.ErroAoListarMoedas e], a')) /\
  (forall m a',
     api_listar_moedas a = (Ok m, a') -> m <> VNone ->
     Consultas.listar_moedas api_listar_moedas false VNone a = (Ok m, m, [], a') /\
     forall a2, Consultas.listar_moedas api_listar_moedas false m a2 = (Ok m, m, [], a2)).
Proof.
  unfold Consultas.listar_moedas. split; [done|]. split; [|split].
  - intros e. destruct memo; try done.
    destruct (api_listar_moedas a) as [[m|x] a']; [done|]. by destruct x.
  - by intros e a' ->.
  - intros m a' -> Hm. split; [done|]. intros a2. by destruct m.
Qed.



End ConsultasMoedas.


(** ** Comparing currencies *)

(** Provider calls do not touch the tables of the database. *)
Lemma fallback_keeps_rows env de para cls errs lg s r records s' :
  Manager.fallback_loop (fun c : string => c) "obter_taxa_par"
    (call_client env de para) cls errs lg s = (r, records, s') ->
  historico s' = historico s /\ multiplas s' = multiplas s.
Proof.
  revert errs lg s.
  induction cls as [|cl cls IH]; intros errs lg s Hrun; simpl in Hrun.
  - by injection Hrun as _ _ <-.
  - destruct (outcome _) as [x|[]] eqn:Ho; try by injection Hrun as _ _ <-.
    by apply IH in Hrun.
Qed.

Lemma obter_taxa_keeps_rows env st de para r st1 :
  obter_taxa env st de para = (r, st1) ->
  historico st1 = historico st /\ multiplas st1 = multiplas st.
Proof.
  unfold obter_taxa.
  destruct (Cache.get _ _ _) as [[v|e] c]; [|by intros [= _ <-]].
  assert (forall r st1,
    match obter_taxa_par env (set_cache st c) de para with
    | (Raise e, s1) => (Raise e, s1)
    | (Ok taxa, s1) =>
        match cache_write env s1 (cache_key de para) (VFloat (Flt.of_decimal taxa)) with
        | (Raise e, s2) => (Raise e, s2)
        | (Ok _, s2) => (Ok taxa, s2)
        end
    end = (r, st1) ->
    historico st1 = historico st /\ multiplas st1 = multiplas st) as Hmiss.
  { clear r st1. intros r st1. unfold obter_taxa_par.
    destruct (Manager._executar_com_fallback _ _ _ _ _) as [[x records] s'] eqn:Hrun.
    apply fallback_keeps_rows in Hrun. simpl in Hrun.
    destruct x as [taxa|e]; [|by intros [= _ <-]].
    unfold cache_write.
    destruct (Cache.set _ _ _ _ _) as [[u|e] c2]; by intros [= _ <-]. }
  destruct v; try apply Hmiss;
    (destruct (Decimal_of_str env _); by intros [= _ <-]).
Qed.

(** A conversion that is not to be saved leaves the history alone. *)
Lemma converter_sem_salvar_keeps_rows env st valor de_moeda para_moeda r st1 :
  converter env st valor de_moeda para_moeda false = (r, st1) ->
  historico st1 = historico st /\ multiplas st1 = multiplas st.
Proof.
  unfold converter.
  destruct (valor_le0 valor); [by intros [= _ <-]|].
  case_bool_decide; [by intros [= _ <-]|].
  unfold converter_try.
  destruct (obter_taxa _ _ _ _) as [[taxa|e] s1] eqn:Ht;
    apply obter_taxa_keeps_rows in Ht; simpl in Ht.
  - destruct (calcular _ _ _ _ _) as [c0|e]; [by intros [= _ <-]|].
    destruct e; by intros [= _ <-].
  - destruct e; by intros [= _ <-].
Qed.

Lemma comparar_loop_props env valor ref moedas :
  forall st resultado avisos res av st',
    Consultas.comparar_loop env st valor ref moedas resultado avisos = (res, av, st') ->
    dom res = dom resultado ∪ list_to_set moedas /\
    historico st' = historico st /\ multiplas st' = multiplas st.
Proof.
  induction moedas as [|moeda rest IH]; intros st resultado avisos res av st'; simpl.
  { intros [= <- _ <-]. by rewrite (right_id_L ∅ (∪)). }
  destruct (converter env st valor ref moeda false) as [[conv|e] st1] eqn:Hc;
    apply converter_sem_salvar_keeps_rows in Hc; destruct Hc as [Hh Hm];
    intros (Hd & Hh' & Hm')%IH; rewrite Hh', Hm', Hh, Hm; (split; [|done]);
    rewrite Hd, dom_insert_L;
    rewrite (comm_L (∪) {[moeda]} (dom resultado)); by rewrite <- (assoc_L (∪)).
Qed.

(** X22.  [comparar_moedas] answers for every code it was given, under
    the code as given (one entry per distinct code), it raises nothing,
    and it saves nothing: the history and the table of batches are as
    before. *)
Theorem comparar_moedas_total env st moedas valor_base moeda_referencia :
  dom (Consultas.comparar_moedas env st moedas valor_base moeda_referencia).1.1
    = list_to_set moedas /\
  historico (Consultas.comparar_moedas env st moedas valor_base moeda_referencia).2
    = historico st /\
  multiplas (Consultas.comparar_moedas env st moedas valor_base moeda_referencia).2
    = multiplas st.
Proof.
  unfold Consultas.comparar_moedas.
  destruct (Consultas.comparar_loop _ _ _ _ _ _ _) as [[res av] st'] eqn:H.
  apply comparar_loop_props in H. destruct H as (Hd & Hh & Hm).
  split; [|done]. simpl. by rewrite Hd, dom_empty_L, (left_id_L ∅ (∪)).
Qed.




(** ** Batches and the database *)




(** ** src/utils *)







(** X27.  [truncar_texto] returns a text that fits as it is; a longer
    text is cut to exactly [maximo] characters, ending in the suffix,
    provided the suffix itself fits; when the suffix is longer than
    [maximo] the result is longer than [maximo]. *)
Theorem truncar_texto_length {A} (texto sufixo : list A) (maximo : Z) :
  let r := Formatters.truncar_texto texto maximo sufixo in
  ((Z.of_nat (length texto) <= maximo)%Z -> r = texto) /\
  ((maximo < Z.of_nat (length texto))%Z ->
   (Z.of_nat (length sufixo) <= maximo)%Z ->
   Z.of_nat (length r) = maximo /\
   r = take (Z.to_nat (maximo - Z.of_nat (length sufixo))) texto ++ sufixo) /\
  ((maximo < Z.of_nat (length texto))%Z ->
   (maximo < Z.of_nat (length sufixo))%Z ->
   (maximo < Z.of_nat (length r))%Z).
Proof.
  simpl. unfold Formatters.truncar_texto, Formatters.slice_to. repeat split.
  - intros H. by rewrite (proj2 (Z.leb_le _ _) H).
  - rewrite (proj2 (Z.leb_gt _ _) H).
    rewrite (proj2 (Z.leb_le 0 _)) by lia.
    rewrite length_app, length_take. lia.
  - rewrite (proj2 (Z.leb_gt _ _) H).
    by rewrite (proj2 (Z.leb_le 0 _)) by lia.
  - intros H1 H2. rewrite (proj2 (Z.leb_gt _ _) H1).
    destruct (0 <=? _)%Z; rewrite length_app; lia.
Qed.
